(** * NFL tendency dashboard: the analytics engine of [data_processing.py]

    A shallow embedding of the aggregation engine (field parsers, indicator
    derivation, situational filter, offense and defense aggregators, league
    ranking) together with the properties stated for it.

    Conventions of the embedding.
    - A pandas [DataFrame] is the list of its rows, in row order; a row is a
      record with one field per column the engine reads or writes.  A
      nullable cell is an [option]: [None] is pandas' NaN / None.
    - Text is [string]; the helpers [strip], [upper] and [py_int] follow
      Python on ASCII text (characters above 127 are treated as ordinary
      characters that are neither space, digit nor letter).
    - Integer cells and counts are [Z] or [nat].  Percentages are exact
      rationals ([Q]) compared with [==]: a finite float is a rational and
      float comparison agrees with the comparison of rationals, so sorting
      and equality tests are exact; the rounding of float division is not
      modelled. *)

From Stdlib Require Import List Bool Arith ZArith QArith Qround Lia.
From Stdlib Require Import Ascii String DecimalString.
From Stdlib Require DecimalPos.
From Stdlib Require Import Permutation Sorted.
Import ListNotations.

Local Open Scope string_scope.
Local Open Scope Z_scope.

(* ================================================================== *)
(** ** Python text primitives *)
(* ================================================================== *)

Module Py.

(** [str.isspace] on ASCII: TAB..CR and FS..SPACE. *)
Definition is_space (c : ascii) : bool :=
  let n := nat_of_ascii c in
  ((9 <=? n) && (n <=? 13) || (28 <=? n) && (n <=? 32))%nat.

Definition is_digit (c : ascii) : bool :=
  let n := nat_of_ascii c in ((48 <=? n) && (n <=? 57))%nat.

Definition digit_value (c : ascii) : Z := Z.of_nat (nat_of_ascii c) - 48.

Fixpoint lstrip (s : string) : string :=
  match s with
  | String c r => if is_space c then lstrip r else s
  | EmptyString => EmptyString
  end.

Fixpoint rstrip (s : string) : string :=
  match s with
  | EmptyString => EmptyString
  | String c r =>
      match rstrip r with
      | EmptyString => if is_space c then EmptyString else String c EmptyString
      | r' => String c r'
      end
  end.

(** [s.strip()] *)
Definition strip (s : string) : string := rstrip (lstrip s).

Definition upper_char (c : ascii) : ascii :=
  let n := nat_of_ascii c in
  if ((97 <=? n) && (n <=? 122))%nat then ascii_of_nat (n - 32) else c.

(** [s.upper()] *)
Fixpoint upper (s : string) : string :=
  match s with
  | EmptyString => EmptyString
  | String c r => String (upper_char c) (upper r)
  end.

(** [s.split(sep)] for a one-character separator: never the empty list. *)
Fixpoint split (sep : ascii) (s : string) : list string :=
  match s with
  | EmptyString => [EmptyString]
  | String c r =>
      if Ascii.eqb c sep then EmptyString :: split sep r
      else match split sep r with
           | hd :: tl => String c hd :: tl
           | [] => [String c EmptyString]
           end
  end.

(** [sep in s] for a one-character [sep]. *)
Fixpoint contains (sep : ascii) (s : string) : bool :=
  match s with
  | EmptyString => false
  | String c r => Ascii.eqb c sep || contains sep r
  end.

(** The digits of an integer literal: decimal digits, where a single
    underscore may stand between two digits.  [seen] tells whether the
    previous character was a digit. *)
Fixpoint int_digits (acc : Z) (seen : bool) (s : string) : option Z :=
  match s with
  | EmptyString => if seen then Some acc else None
  | String c r =>
      if is_digit c then int_digits (10 * acc + digit_value c) true r
      else if Ascii.eqb c "_" && seen then int_digits acc false r
      else None
  end.

(** [int(s)]: [None] is [ValueError]. *)
Definition py_int (s : string) : option Z :=
  match strip s with
  | String "+" r => int_digits 0 false r
  | String "-" r => option_map Z.opp (int_digits 0 false r)
  | t => int_digits 0 false t
  end.

(** [str(n)] for an integer. *)
Definition str_of_Z (n : Z) : string := NilZero.string_of_int (Z.to_int n).

Definition str_of_nat (n : nat) : string := str_of_Z (Z.of_nat n).

(** [x in l] for a list of strings. *)
Definition in_list (x : string) (l : list string) : bool :=
  existsb (String.eqb x) l.

(** [f"{q:.1f}"]: one decimal, ties to even, on the exact value. *)
Definition round_half_even (q : Q) : Z :=
  let f := Qfloor q in
  let r := (q - inject_Z f)%Q in
  match (r ?= 1 # 2)%Q with
  | Lt => f
  | Gt => f + 1
  | Eq => if Z.even f then f else f + 1
  end.

Definition format_1f (q : Q) : string :=
  let n := round_half_even (q * 10)%Q in
  let a := Z.abs n in
  (if n <? 0 then "-" else "") ++ str_of_Z (a / 10) ++ "." ++ str_of_Z (a mod 10).

End Py.

(* ================================================================== *)
(** ** Field parsers *)
(* ================================================================== *)

(** [parse_clock_to_minutes]: the minute component of an "MM:SS" clock;
    0 for a null clock and whenever [int] raises. *)
Definition parse_clock_to_minutes (clock_str : option string) : Z :=
  match clock_str with
  | None => 0
  | Some s =>
      match Py.split ":" s with
      | part0 :: _ =>
          match Py.py_int part0 with
          | Some minutes => minutes
          | None => 0
          end
      | [] => 0
      end
  end.

(** [normalize_formation_group]: "AxB" with the larger number first. *)
Definition normalize_formation_group (formation : option string) : option string :=
  match formation with
  | None => None
  | Some s =>
      if Py.contains "x" s then
        match Py.split "x" s with
        | [p0; p1] =>
            match Py.py_int p0, Py.py_int p1 with
            | Some num1, Some num2 =>
                Some (Py.str_of_Z (Z.max num1 num2) ++ "x" ++ Py.str_of_Z (Z.min num1 num2))
            | _, _ => formation
            end
        | _ => formation
        end
      else formation
  end.

(** [parse_pass_rushers]: the leading count of "4; PHI 53 (LILB); ...". *)
Definition parse_pass_rushers (rushers_str : option string) : Z :=
  match rushers_str with
  | None => 0
  | Some s =>
      match Py.split ";" s with
      | part0 :: _ =>
          match Py.py_int (Py.strip part0) with
          | Some num_rushers => num_rushers
          | None => 0
          end
      | [] => 0
      end
  end.

Definition man_coverages : list string :=
  ["COVER 0"; "COVER 1"; "COVER 1 DOUBLE"; "COVER 2 MAN"].

Definition is_man_coverage (coverage : option string) : bool :=
  match coverage with
  | None => false
  | Some s => Py.in_list (Py.upper (Py.strip s)) man_coverages
  end.

Definition normalize_coverage (coverage : option string) : option string :=
  match coverage with
  | None => None
  | Some s =>
      let coverage_str := Py.upper (Py.strip s) in
      if Py.in_list coverage_str ["COVER 3 CLOUD"; "COVER 3 DBL CLOUD"; "COVER 3 SEAM"]
      then Some "COVER 3"
      else Some coverage_str
  end.

(* ================================================================== *)
(** ** Play records *)
(* ================================================================== *)

(** One row of the play feed.  The first block holds the columns of the
    CSV file that the engine reads; the second block holds the calculated
    columns.  In a frame that has not been through [add_calculated_columns]
    the second block is not yet meaningful: the derivation assigns every
    one of its columns and reads none of them. *)
Module Col.

Record Row := {
  (* columns of the play feed *)
  pff_OFFTEAM : option string;
  pff_DEFTEAM : option string;
  pff_WEEK : option string;
  pff_QUARTER : option Z;
  pff_DOWN : option Z;
  pff_DISTANCE : option Z;
  pff_YARDS_TO_GOAL_LINE : option Z;
  pff_CLOCK : option string;
  pff_RUNPASS : option string;
  pff_RUNCONCEPTPRIMARY : option string;
  pff_DROPBACKTYPE : option string;
  pff_PLAYACTION : option Z;
  pff_OFF_PERSONNEL_GROUP : option string;
  pff_OFFFORMATIONGROUP : option string;
  pff_SHIFTMOTION : option string;
  pff_DEF_PACKAGE : option string;
  pff_BLITZDOG : option Z;
  pff_PASSRUSHPLAYERS : option string;
  pff_PASS_COVERAGE_BASIC : option string;
  pff_MOFOCSHOWN : option string;
  pff_MOFOCPLAYED : option string;
  (* calculated columns *)
  minutes_remaining : Z;
  pff_OFFFORMATIONGROUP_NORM : option string;
  is_run : Z;
  has_motion : Z;
  is_play_action : Z;
  is_standard_dropback : Z;
  pff_PASS_COVERAGE_NORMALIZED : option string;
  num_pass_rushers : Z;
  is_blitz : Z;
  is_man_coverage : Z;
  is_mofo : Z;
  is_disguise : Z;
  has_mofo_data : Z
}.

End Col.

Abbreviation Play := Col.Row.
Abbreviation DataFrame := (list Col.Row).

(** *** Cell-level pandas operations *)

(** [series.notna()] *)
Definition notna {A : Type} (x : option A) : bool :=
  match x with Some _ => true | None => false end.

(** [series == s] for a text column: a null cell equals nothing. *)
Definition str_eq (x : option string) (s : string) : bool :=
  match x with Some v => String.eqb v s | None => false end.

(** [series == n] for a numeric column. *)
Definition num_eq (x : option Z) (n : Z) : bool :=
  match x with Some v => Z.eqb v n | None => false end.

(** [a != b] on two text columns: true as soon as one side is null. *)
Definition str_ne (x y : option string) : bool :=
  match x, y with
  | Some a, Some b => negb (String.eqb a b)
  | _, _ => true
  end.

(** [series.isin(values)] for a text column. *)
Definition str_isin (x : option string) (values : list string) : bool :=
  match x with Some v => Py.in_list v values | None => false end.

(** [series.isin(values)] for an integer column. *)
Definition num_isin (x : option Z) (values : list Z) : bool :=
  match x with Some v => existsb (Z.eqb v) values | None => false end.

(** [(series >= lo) & (series <= hi)]: false on a null cell. *)
Definition num_between (x : option Z) (lo hi : Z) : bool :=
  match x with Some v => (lo <=? v) && (v <=? hi) | None => false end.

(** [series.fillna(0)] *)
Definition fillna0 (x : option Z) : Z :=
  match x with Some v => v | None => 0 end.

(** [series.astype(str)]: the text of the cell, "nan" for a null one. *)
Definition astype_str (x : option string) : string :=
  match x with Some v => v | None => "nan" end.

(* ================================================================== *)
(** ** Indicator derivation *)
(* ================================================================== *)

(** [add_defensive_columns], row by row. *)
Definition add_defensive_columns_row (p : Play) : Play :=
  {| Col.pff_OFFTEAM := Col.pff_OFFTEAM p;
     Col.pff_DEFTEAM := Col.pff_DEFTEAM p;
     Col.pff_WEEK := Col.pff_WEEK p;
     Col.pff_QUARTER := Col.pff_QUARTER p;
     Col.pff_DOWN := Col.pff_DOWN p;
     Col.pff_DISTANCE := Col.pff_DISTANCE p;
     Col.pff_YARDS_TO_GOAL_LINE := Col.pff_YARDS_TO_GOAL_LINE p;
     Col.pff_CLOCK := Col.pff_CLOCK p;
     Col.pff_RUNPASS := Col.pff_RUNPASS p;
     Col.pff_RUNCONCEPTPRIMARY := Col.pff_RUNCONCEPTPRIMARY p;
     Col.pff_DROPBACKTYPE := Col.pff_DROPBACKTYPE p;
     Col.pff_PLAYACTION := Col.pff_PLAYACTION p;
     Col.pff_OFF_PERSONNEL_GROUP := Col.pff_OFF_PERSONNEL_GROUP p;
     Col.pff_OFFFORMATIONGROUP := Col.pff_OFFFORMATIONGROUP p;
     Col.pff_SHIFTMOTION := Col.pff_SHIFTMOTION p;
     Col.pff_DEF_PACKAGE := Col.pff_DEF_PACKAGE p;
     Col.pff_BLITZDOG := Col.pff_BLITZDOG p;
     Col.pff_PASSRUSHPLAYERS := Col.pff_PASSRUSHPLAYERS p;
     Col.pff_PASS_COVERAGE_BASIC := Col.pff_PASS_COVERAGE_BASIC p;
     Col.pff_MOFOCSHOWN := Col.pff_MOFOCSHOWN p;
     Col.pff_MOFOCPLAYED := Col.pff_MOFOCPLAYED p;
     Col.minutes_remaining := Col.minutes_remaining p;
     Col.pff_OFFFORMATIONGROUP_NORM := Col.pff_OFFFORMATIONGROUP_NORM p;
     Col.is_run := Col.is_run p;
     Col.has_motion := Col.has_motion p;
     Col.is_play_action := Col.is_play_action p;
     Col.is_standard_dropback := Col.is_standard_dropback p;
     Col.pff_PASS_COVERAGE_NORMALIZED := normalize_coverage (Col.pff_PASS_COVERAGE_BASIC p);
     Col.num_pass_rushers := parse_pass_rushers (Col.pff_PASSRUSHPLAYERS p);
     Col.is_blitz := Z.b2z (num_eq (Col.pff_BLITZDOG p) 1);
     Col.is_man_coverage := Z.b2z (is_man_coverage (Col.pff_PASS_COVERAGE_BASIC p));
     Col.is_mofo := Z.b2z (str_eq (Col.pff_MOFOCPLAYED p) "O");
     Col.is_disguise :=
       Z.b2z (notna (Col.pff_MOFOCSHOWN p) && notna (Col.pff_MOFOCPLAYED p)
              && str_ne (Col.pff_MOFOCSHOWN p) (Col.pff_MOFOCPLAYED p));
     Col.has_mofo_data :=
       Z.b2z (notna (Col.pff_MOFOCSHOWN p) && notna (Col.pff_MOFOCPLAYED p)) |}.

Definition add_defensive_columns (df : DataFrame) : DataFrame :=
  map add_defensive_columns_row df.

(** The offensive assignments of [add_calculated_columns], row by row. *)
Definition add_offensive_columns_row (p : Play) : Play :=
  {| Col.pff_OFFTEAM := Col.pff_OFFTEAM p;
     Col.pff_DEFTEAM := Col.pff_DEFTEAM p;
     Col.pff_WEEK := Col.pff_WEEK p;
     Col.pff_QUARTER := Col.pff_QUARTER p;
     Col.pff_DOWN := Col.pff_DOWN p;
     Col.pff_DISTANCE := Col.pff_DISTANCE p;
     Col.pff_YARDS_TO_GOAL_LINE := Col.pff_YARDS_TO_GOAL_LINE p;
     Col.pff_CLOCK := Col.pff_CLOCK p;
     Col.pff_RUNPASS := Col.pff_RUNPASS p;
     Col.pff_RUNCONCEPTPRIMARY := Col.pff_RUNCONCEPTPRIMARY p;
     Col.pff_DROPBACKTYPE := Col.pff_DROPBACKTYPE p;
     Col.pff_PLAYACTION := Col.pff_PLAYACTION p;
     Col.pff_OFF_PERSONNEL_GROUP := Col.pff_OFF_PERSONNEL_GROUP p;
     Col.pff_OFFFORMATIONGROUP := Col.pff_OFFFORMATIONGROUP p;
     Col.pff_SHIFTMOTION := Col.pff_SHIFTMOTION p;
     Col.pff_DEF_PACKAGE := Col.pff_DEF_PACKAGE p;
     Col.pff_BLITZDOG := Col.pff_BLITZDOG p;
     Col.pff_PASSRUSHPLAYERS := Col.pff_PASSRUSHPLAYERS p;
     Col.pff_PASS_COVERAGE_BASIC := Col.pff_PASS_COVERAGE_BASIC p;
     Col.pff_MOFOCSHOWN := Col.pff_MOFOCSHOWN p;
     Col.pff_MOFOCPLAYED := Col.pff_MOFOCPLAYED p;
     Col.minutes_remaining := parse_clock_to_minutes (Col.pff_CLOCK p);
     Col.pff_OFFFORMATIONGROUP_NORM := normalize_formation_group (Col.pff_OFFFORMATIONGROUP p);
     Col.is_run := Z.b2z (str_eq (Col.pff_RUNPASS p) "R");
     Col.has_motion := Z.b2z (notna (Col.pff_SHIFTMOTION p));
     Col.is_play_action := fillna0 (Col.pff_PLAYACTION p);
     Col.is_standard_dropback :=
       Z.b2z (str_isin (Col.pff_DROPBACKTYPE p) ["SD"; "SR"; "SL"]
              && num_eq (Col.pff_PLAYACTION p) 0);
     Col.pff_PASS_COVERAGE_NORMALIZED := Col.pff_PASS_COVERAGE_NORMALIZED p;
     Col.num_pass_rushers := Col.num_pass_rushers p;
     Col.is_blitz := Col.is_blitz p;
     Col.is_man_coverage := Col.is_man_coverage p;
     Col.is_mofo := Col.is_mofo p;
     Col.is_disguise := Col.is_disguise p;
     Col.has_mofo_data := Col.has_mofo_data p |}.

(** [add_calculated_columns]: the offensive columns, then
    [add_defensive_columns]. *)
Definition add_calculated_columns (df : DataFrame) : DataFrame :=
  add_defensive_columns (map add_offensive_columns_row df).

(* ================================================================== *)
(** ** Filter engine *)
(* ================================================================== *)

(** The [filters] dictionary: a key that is missing or [None] is [None]. *)
Record Filters := {
  team : option string;
  weeks : option (list string);
  quarters : option (list Z);
  time_range : option (Z * Z);
  downs : option (list Z);
  yards_to_go_range : option (Z * Z);
  yardline_range : option (Z * Z)
}.

(** [if filters.get('team'):] the empty string is falsy as well. *)
Definition team_filter (f : Filters) (df : DataFrame) : DataFrame :=
  match team f with
  | Some t =>
      if String.eqb t "" then df
      else filter (fun p => str_eq (Col.pff_OFFTEAM p) t) df
  | None => df
  end.

(** [if filters.get('weeks') and len(filters['weeks']) > 0:] *)
Definition week_filter (f : Filters) (df : DataFrame) : DataFrame :=
  match weeks f with
  | Some (w :: ws) =>
      filter (fun p => Py.in_list (astype_str (Col.pff_WEEK p)) (w :: ws)) df
  | _ => df
  end.

Definition quarter_filter (f : Filters) (df : DataFrame) : DataFrame :=
  match quarters f with
  | Some (q :: qs) => filter (fun p => num_isin (Col.pff_QUARTER p) (q :: qs)) df
  | _ => df
  end.

Definition time_filter (f : Filters) (df : DataFrame) : DataFrame :=
  match time_range f with
  | Some (min_time, max_time) =>
      filter (fun p => (min_time <=? Col.minutes_remaining p)
                       && (Col.minutes_remaining p <=? max_time)) df
  | None => df
  end.

Definition down_filter (f : Filters) (df : DataFrame) : DataFrame :=
  match downs f with
  | Some (d :: ds) => filter (fun p => num_isin (Col.pff_DOWN p) (d :: ds)) df
  | _ => df
  end.

Definition yards_to_go_filter (f : Filters) (df : DataFrame) : DataFrame :=
  match yards_to_go_range f with
  | Some (min_ytg, max_ytg) =>
      filter (fun p => num_between (Col.pff_DISTANCE p) min_ytg max_ytg) df
  | None => df
  end.

Definition yardline_filter (f : Filters) (df : DataFrame) : DataFrame :=
  match yardline_range f with
  | Some (min_yl, max_yl) =>
      filter (fun p => num_between (Col.pff_YARDS_TO_GOAL_LINE p) min_yl max_yl) df
  | None => df
  end.

(** [filter_data]: the seven steps in the order of the source. *)
Definition filter_data (df : DataFrame) (filters : Filters) : DataFrame :=
  let df_filtered := df in
  let df_filtered := team_filter filters df_filtered in
  let df_filtered := week_filter filters df_filtered in
  let df_filtered := quarter_filter filters df_filtered in
  let df_filtered := time_filter filters df_filtered in
  let df_filtered := down_filter filters df_filtered in
  let df_filtered := yards_to_go_filter filters df_filtered in
  let df_filtered := yardline_filter filters df_filtered in
  df_filtered.

(** The defense tab of [app.py]: the rows whose defense team is the
    selected team, then the six situational steps, written out there
    instead of calling [filter_data]. *)
Definition defense_tab_filter (df : DataFrame) (filters : Filters)
    (selected_team : string) : DataFrame :=
  let df_defense_filtered :=
    filter (fun p => str_eq (Col.pff_DEFTEAM p) selected_team) df in
  let df_defense_filtered := week_filter filters df_defense_filtered in
  let df_defense_filtered := quarter_filter filters df_defense_filtered in
  let df_defense_filtered := time_filter filters df_defense_filtered in
  let df_defense_filtered := down_filter filters df_defense_filtered in
  let df_defense_filtered := yards_to_go_filter filters df_defense_filtered in
  let df_defense_filtered := yardline_filter filters df_defense_filtered in
  df_defense_filtered.

(* ================================================================== *)
(** ** Frame helpers: sorting, distinct values, counts, groups *)
(* ================================================================== *)

Section Sorting.
Context {A : Type}.
Variable le : A -> A -> bool.

Fixpoint insert_by (x : A) (l : list A) : list A :=
  match l with
  | [] => [x]
  | y :: t => if le x y then x :: y :: t else y :: insert_by x t
  end.

(** A stable sort: of two rows that compare equal, the earlier stays
    first.  pandas does not promise an order among equal keys. *)
Fixpoint sort_by (l : list A) : list A :=
  match l with
  | [] => []
  | x :: t => insert_by x (sort_by t)
  end.
End Sorting.

Section Distinct.
Context {A : Type}.
Variable eqb : A -> A -> bool.

(** [series.unique()]: the distinct values in order of first appearance. *)
Fixpoint unique (l : list A) : list A :=
  match l with
  | [] => []
  | x :: t => x :: filter (fun y => negb (eqb x y)) (unique t)
  end.
End Distinct.

(** Equality of two cells as [unique] sees it: nulls are one value. *)
Definition cell_eqb (x y : option string) : bool :=
  match x, y with
  | Some a, Some b => String.eqb a b
  | None, None => true
  | _, _ => false
  end.

(** [series.dropna()] *)
Fixpoint dropna {A : Type} (l : list (option A)) : list A :=
  match l with
  | [] => []
  | Some v :: t => v :: dropna t
  | None :: t => dropna t
  end.

(** [series.value_counts()]: the non-null values with their counts, the
    most frequent first; values of equal count stay in order of first
    appearance. *)
Definition value_counts (column : list (option string)) : list (string * nat) :=
  let values := dropna column in
  sort_by (fun a b => (snd b <=? snd a)%nat)
    (map (fun v => (v, List.length (filter (String.eqb v) values)))
         (unique String.eqb values)).

(** [series.sum()] of an integer column. *)
Definition col_sum (col : Play -> Z) (df : DataFrame) : Z :=
  fold_right Z.add 0 (map col df).

(** [(count / total) * 100] *)
Definition pct (count : Z) (total : nat) : Q :=
  (inject_Z count / inject_Z (Z.of_nat total) * 100)%Q.

(** [df.groupby(category_column)]: one group per distinct non-null key, the
    keys ascending, each group in row order.  [category_column] is given
    as the reading of that column from a row. *)
Definition groupby (category_column : Play -> option string) (df : DataFrame)
    : list (string * DataFrame) :=
  map (fun category =>
         (category, filter (fun p => str_eq (category_column p) category) df))
      (sort_by String.leb (unique String.eqb (dropna (map category_column df)))).

(** The three most frequent values of a column as ["NAME (12.3%)"], the
    percentage taken against [total]. *)
Definition top3 (column : list (option string)) (total : nat) : list string :=
  map (fun '(name, count) =>
         name ++ " (" ++ Py.format_1f (pct (Z.of_nat count) total) ++ "%)")
      (firstn 3 (value_counts column)).

Definition newline : string := String (ascii_of_nat 10) EmptyString.

(* ================================================================== *)
(** ** Offense aggregator *)
(* ================================================================== *)

Module Overall.
Record t := {
  total_plays : nat;
  run_pct : Q;
  pa_pct : Q;
  db_pct : Q;
  motion_pct : Q;
  top_run_concepts : list string
}.
End Overall.

Module CategoryRow.
Record t := {
  Category : string;
  Plays : nat;
  Usage_Pct : Q;
  Run_Pct : Q;
  PA_Pct : Q;
  DB_Pct : Q;
  Motion_Pct : Q;
  Top_Run_Concepts : string
}.
End CategoryRow.

(** The top run concepts of a frame: among its run plays only. *)
Definition run_concepts (df : DataFrame) : list string :=
  let run_plays := filter (fun p => Col.is_run p =? 1) df in
  if (0 <? List.length run_plays)%nat
  then top3 (map Col.pff_RUNCONCEPTPRIMARY run_plays) (List.length run_plays)
  else [].

Definition calculate_overall_tendencies (df : DataFrame) : Overall.t :=
  let total_plays := List.length df in
  if (total_plays =? 0)%nat then
    {| Overall.total_plays := 0;
       Overall.run_pct := 0;
       Overall.pa_pct := 0;
       Overall.db_pct := 0;
       Overall.motion_pct := 0;
       Overall.top_run_concepts := [] |}
  else
    {| Overall.total_plays := total_plays;
       Overall.run_pct := pct (col_sum Col.is_run df) total_plays;
       Overall.pa_pct := pct (col_sum Col.is_play_action df) total_plays;
       Overall.db_pct := pct (col_sum Col.is_standard_dropback df) total_plays;
       Overall.motion_pct := pct (col_sum Col.has_motion df) total_plays;
       Overall.top_run_concepts := run_concepts df |}.

(** The row that the loop of [calculate_category_tendencies] appends for
    one group. *)
Definition category_row (total_team_plays : nat) (category : string)
    (group : DataFrame) : CategoryRow.t :=
  let category_plays := List.length group in
  let guarded (col : Play -> Z) : Q :=
    if (0 <? category_plays)%nat then pct (col_sum col group) category_plays else 0%Q in
  {| CategoryRow.Category := category;
     CategoryRow.Plays := category_plays;
     CategoryRow.Usage_Pct := pct (Z.of_nat category_plays) total_team_plays;
     CategoryRow.Run_Pct := guarded Col.is_run;
     CategoryRow.PA_Pct := guarded Col.is_play_action;
     CategoryRow.DB_Pct := guarded Col.is_standard_dropback;
     CategoryRow.Motion_Pct := guarded Col.has_motion;
     CategoryRow.Top_Run_Concepts := String.concat newline (run_concepts group) |}.

(** [calculate_category_tendencies]: the empty frame for an empty input,
    else one row per group, sorted by usage, highest first.  [None] is the
    [KeyError] of [sort_values('Usage_Pct')] on the frame without columns
    that [pd.DataFrame([])] builds when the input has rows but no row has a
    category. *)
Definition calculate_category_tendencies (df : DataFrame)
    (category_column : Play -> option string) : option (list CategoryRow.t) :=
  if (List.length df =? 0)%nat then Some []
  else
    let total_team_plays := List.length df in
    let results :=
      map (fun '(category, group) => category_row total_team_plays category group)
          (groupby category_column df) in
    match results with
    | [] => None
    | _ :: _ =>
        Some (sort_by (fun a b => Qle_bool (CategoryRow.Usage_Pct b)
                                           (CategoryRow.Usage_Pct a))
                      results)
    end.

(* ================================================================== *)
(** ** League table of the offense *)
(* ================================================================== *)

Module TeamRow.
Record t := {
  Team : option string;
  Total_Plays : nat;
  Run_Pct : Q;
  PA_Pct : Q;
  DB_Pct : Q;
  Motion_Pct : Q
}.
End TeamRow.

(** [series == team] where [team] is itself a cell: a null equals nothing. *)
Definition team_is (x team : option string) : bool :=
  match team with Some t => str_eq x t | None => false end.

(** [calculate_all_teams_tendencies]: every situational step except the
    team step, then one row per offense team with plays left.  The
    argument [category_column] can be any value: the dashboard passes
    [None]. *)
Definition calculate_all_teams_tendencies {C : Type} (df : DataFrame)
    (filters : Filters) (category_column : C) : list TeamRow.t :=
  let df_filtered := df in
  let df_filtered := week_filter filters df_filtered in
  let df_filtered := quarter_filter filters df_filtered in
  let df_filtered := time_filter filters df_filtered in
  let df_filtered := down_filter filters df_filtered in
  let df_filtered := yards_to_go_filter filters df_filtered in
  let df_filtered := yardline_filter filters df_filtered in
  flat_map
    (fun team =>
       let team_df := filter (fun p => team_is (Col.pff_OFFTEAM p) team) df_filtered in
       if (List.length team_df =? 0)%nat then []
       else
         let total_plays := List.length team_df in
         [ {| TeamRow.Team := team;
              TeamRow.Total_Plays := total_plays;
              TeamRow.Run_Pct := pct (col_sum Col.is_run team_df) total_plays;
              TeamRow.PA_Pct := pct (col_sum Col.is_play_action team_df) total_plays;
              TeamRow.DB_Pct := pct (col_sum Col.is_standard_dropback team_df) total_plays;
              TeamRow.Motion_Pct := pct (col_sum Col.has_motion team_df) total_plays |} ])
    (unique cell_eqb (map Col.pff_OFFTEAM df_filtered)).

(* ================================================================== *)
(** ** Defense aggregator *)
(* ================================================================== *)

Module DefOverall.
Record t := {
  total_plays : nat;
  blitz_pct : Q;
  man_pct : Q;
  mofo_pct : Q;
  disguise_pct : Q;
  top_coverages : list string
}.
End DefOverall.

Module DefCategoryRow.
Record t := {
  Category : string;
  Plays : nat;
  Usage_Pct : Q;
  Blitz_Pct : Q;
  Man_Pct : Q;
  MOFO_Pct : Q;
  Disguise_Pct : Q;
  Top_Coverages : string
}.
End DefCategoryRow.

Module DefTeamRow.
Record t := {
  Team : option string;
  Total_Plays : nat;
  Blitz_Pct : Q;
  Man_Pct : Q;
  MOFO_Pct : Q;
  Disguise_Pct : Q
}.
End DefTeamRow.

(** [df[df['pff_RUNPASS'] == 'P']] *)
Definition pass_plays_of (df : DataFrame) : DataFrame :=
  filter (fun p => str_eq (Col.pff_RUNPASS p) "P") df.

(** The disguise rate of a frame of pass plays: against the plays with
    valid MOFO data, 0 when there are none. *)
Definition disguise_rate (pass_plays : DataFrame) : Q :=
  let pass_plays_with_mofo := filter (fun p => Col.has_mofo_data p =? 1) pass_plays in
  if (0 <? List.length pass_plays_with_mofo)%nat
  then pct (col_sum Col.is_disguise pass_plays_with_mofo) (List.length pass_plays_with_mofo)
  else 0%Q.

Definition calculate_defensive_overall_tendencies (df : DataFrame) : DefOverall.t :=
  let total_plays := List.length df in
  let pass_plays := pass_plays_of df in
  let total_pass_plays := List.length pass_plays in
  if (total_pass_plays =? 0)%nat then
    {| DefOverall.total_plays := total_plays;
       DefOverall.blitz_pct := 0;
       DefOverall.man_pct := 0;
       DefOverall.mofo_pct := 0;
       DefOverall.disguise_pct := 0;
       DefOverall.top_coverages := [] |}
  else
    {| DefOverall.total_plays := total_plays;
       DefOverall.blitz_pct := pct (col_sum Col.is_blitz pass_plays) total_pass_plays;
       DefOverall.man_pct := pct (col_sum Col.is_man_coverage pass_plays) total_pass_plays;
       DefOverall.mofo_pct := pct (col_sum Col.is_mofo pass_plays) total_pass_plays;
       DefOverall.disguise_pct := disguise_rate pass_plays;
       DefOverall.top_coverages :=
         if (0 <? total_pass_plays)%nat
         then top3 (map Col.pff_PASS_COVERAGE_NORMALIZED pass_plays) total_pass_plays
         else [] |}.

(** The row that the loop of [calculate_defensive_category_tendencies]
    appends for one group. *)
Definition defensive_category_row (total_team_plays : nat) (category : string)
    (group : DataFrame) : DefCategoryRow.t :=
  let category_plays := List.length group in
  let pass_plays := pass_plays_of group in
  let total_pass_plays := List.length pass_plays in
  let top_coverages :=
    if (0 <? total_pass_plays)%nat
    then top3 (map Col.pff_PASS_COVERAGE_NORMALIZED pass_plays) total_pass_plays
    else [] in
  {| DefCategoryRow.Category := category;
     DefCategoryRow.Plays := category_plays;
     DefCategoryRow.Usage_Pct := pct (Z.of_nat category_plays) total_team_plays;
     DefCategoryRow.Blitz_Pct :=
       if (0 <? total_pass_plays)%nat
       then pct (col_sum Col.is_blitz pass_plays) total_pass_plays else 0%Q;
     DefCategoryRow.Man_Pct :=
       if (0 <? total_pass_plays)%nat
       then pct (col_sum Col.is_man_coverage pass_plays) total_pass_plays else 0%Q;
     DefCategoryRow.MOFO_Pct :=
       if (0 <? total_pass_plays)%nat
       then pct (col_sum Col.is_mofo pass_plays) total_pass_plays else 0%Q;
     DefCategoryRow.Disguise_Pct :=
       if (0 <? total_pass_plays)%nat then disguise_rate pass_plays else 0%Q;
     DefCategoryRow.Top_Coverages := String.concat newline top_coverages |}.

(** [calculate_defensive_category_tendencies]: as on the offense side,
    [None] is the [KeyError] of the final sort when no row has a category. *)
Definition calculate_defensive_category_tendencies (df : DataFrame)
    (category_column : Play -> option string) : option (list DefCategoryRow.t) :=
  if (List.length df =? 0)%nat then Some []
  else
    let total_team_plays := List.length df in
    let results :=
      map (fun '(category, group) =>
             defensive_category_row total_team_plays category group)
          (groupby category_column df) in
    match results with
    | [] => None
    | _ :: _ =>
        Some (sort_by (fun a b => Qle_bool (DefCategoryRow.Usage_Pct b)
                                           (DefCategoryRow.Usage_Pct a))
                      results)
    end.

(** [calculate_all_teams_defensive_tendencies]: grouped by defense team; a
    team without pass plays gets no row. *)
Definition calculate_all_teams_defensive_tendencies (df : DataFrame)
    (filters : Filters) : list DefTeamRow.t :=
  let df_filtered := df in
  let df_filtered := week_filter filters df_filtered in
  let df_filtered := quarter_filter filters df_filtered in
  let df_filtered := time_filter filters df_filtered in
  let df_filtered := down_filter filters df_filtered in
  let df_filtered := yards_to_go_filter filters df_filtered in
  let df_filtered := yardline_filter filters df_filtered in
  flat_map
    (fun team =>
       let team_df := filter (fun p => team_is (Col.pff_DEFTEAM p) team) df_filtered in
       if (List.length team_df =? 0)%nat then []
       else
         let total_plays := List.length team_df in
         let pass_plays := pass_plays_of team_df in
         let total_pass_plays := List.length pass_plays in
         if (total_pass_plays =? 0)%nat then []
         else
           [ {| DefTeamRow.Team := team;
                DefTeamRow.Total_Plays := total_plays;
                DefTeamRow.Blitz_Pct := pct (col_sum Col.is_blitz pass_plays) total_pass_plays;
                DefTeamRow.Man_Pct := pct (col_sum Col.is_man_coverage pass_plays) total_pass_plays;
                DefTeamRow.MOFO_Pct := pct (col_sum Col.is_mofo pass_plays) total_pass_plays;
                DefTeamRow.Disguise_Pct := disguise_rate pass_plays |} ])
    (unique cell_eqb (map Col.pff_DEFTEAM df_filtered)).

(* ================================================================== *)
(** ** League ranking *)
(* ================================================================== *)

(** [all_teams_df[metric].sort_values(ascending=False).values] *)
Definition sort_values_desc (values : list Q) : list Q :=
  sort_by (fun a b => Qle_bool b a) values.

(** [sorted_values == value], element by element. *)
Definition eq_mask (sorted_values : list Q) (value : Q) : list bool :=
  map (fun x => Qeq_bool x value) sorted_values.

(** [np.where(mask)[0]]: the positions of the true entries, from [i] on. *)
Fixpoint np_where (mask : list bool) (i : nat) : list nat :=
  match mask with
  | [] => []
  | b :: t => if b then i :: np_where t (S i) else np_where t (S i)
  end.

(** [np.sum(mask)] *)
Definition np_sum (mask : list bool) : nat :=
  List.length (filter (fun b => b) mask).

(** The body of the row loop of [add_rankings] (and of [get_rank] in the
    dashboard): the rank string of [value] among the values that all
    teams have for one metric. *)
Definition rank_of (all_values : list Q) (value : Q) : string :=
  let sorted_values := sort_values_desc all_values in
  let rank := np_where (eq_mask sorted_values value) 0 in
  match rank with
  | rank0 :: _ =>
      let rank_value := (rank0 + 1)%nat in
      let tied_count := np_sum (eq_mask sorted_values value) in
      if (1 <? tied_count)%nat
      then "t-" ++ Py.str_of_nat rank_value
      else Py.str_of_nat rank_value
  | [] => "-"
  end.

(** [add_rankings] for one metric that both frames have: the column
    [<metric>_Rank], one rank string per row of the team frame. *)
Definition rankings (team_values all_values : list Q) : list string :=
  map (rank_of all_values) team_values.

(* ================================================================== *)
(** ** The properties, in the words of the specification *)
(* ================================================================== *)

(** *** Filter criteria *)

(** What a filter specification asks of a row: one clause per criterion,
    void when the criterion is absent or empty. *)
Definition criteria_met (f : Filters) (p : Play) : Prop :=
  (forall t, team f = Some t -> t <> "" -> Col.pff_OFFTEAM p = Some t) /\
  (forall ws, weeks f = Some ws -> ws <> [] -> In (astype_str (Col.pff_WEEK p)) ws) /\
  (forall qs, quarters f = Some qs -> qs <> [] ->
     exists q, Col.pff_QUARTER p = Some q /\ In q qs) /\
  (forall lo hi, time_range f = Some (lo, hi) -> lo <= Col.minutes_remaining p <= hi) /\
  (forall ds, downs f = Some ds -> ds <> [] ->
     exists d, Col.pff_DOWN p = Some d /\ In d ds) /\
  (forall lo hi, yards_to_go_range f = Some (lo, hi) ->
     exists d, Col.pff_DISTANCE p = Some d /\ lo <= d <= hi) /\
  (forall lo hi, yardline_range f = Some (lo, hi) ->
     exists y, Col.pff_YARDS_TO_GOAL_LINE p = Some y /\ lo <= y <= hi).

Definition team_ok (f : Filters) (p : Play) : bool :=
  match team f with
  | Some t => if String.eqb t "" then true else str_eq (Col.pff_OFFTEAM p) t
  | None => true
  end.

Definition weeks_ok (f : Filters) (p : Play) : bool :=
  match weeks f with
  | Some (w :: ws) => Py.in_list (astype_str (Col.pff_WEEK p)) (w :: ws)
  | _ => true
  end.

Definition quarters_ok (f : Filters) (p : Play) : bool :=
  match quarters f with
  | Some (q :: qs) => num_isin (Col.pff_QUARTER p) (q :: qs)
  | _ => true
  end.

Definition time_ok (f : Filters) (p : Play) : bool :=
  match time_range f with
  | Some (lo, hi) => (lo <=? Col.minutes_remaining p) && (Col.minutes_remaining p <=? hi)
  | None => true
  end.

Definition downs_ok (f : Filters) (p : Play) : bool :=
  match downs f with
  | Some (d :: ds) => num_isin (Col.pff_DOWN p) (d :: ds)
  | _ => true
  end.

Definition yards_to_go_ok (f : Filters) (p : Play) : bool :=
  match yards_to_go_range f with
  | Some (lo, hi) => num_between (Col.pff_DISTANCE p) lo hi
  | None => true
  end.

Definition yardline_ok (f : Filters) (p : Play) : bool :=
  match yardline_range f with
  | Some (lo, hi) => num_between (Col.pff_YARDS_TO_GOAL_LINE p) lo hi
  | None => true
  end.

(** The six criteria other than the team. *)
Definition situation_ok (f : Filters) (p : Play) : bool :=
  weeks_ok f p && quarters_ok f p && time_ok f p && downs_ok f p
  && yards_to_go_ok f p && yardline_ok f p.

(** The decision procedure for [criteria_met]. *)
Definition criteria_metb (f : Filters) (p : Play) : bool :=
  team_ok f p && situation_ok f p.

(** [Subseq l1 l2]: [l1] is [l2] with some elements left out, the others
    in their original order. *)
Inductive Subseq {A : Type} : list A -> list A -> Prop :=
| Subseq_nil : Subseq [] []
| Subseq_skip x l1 l2 : Subseq l1 l2 -> Subseq l1 (x :: l2)
| Subseq_keep x l1 l2 : Subseq l1 l2 -> Subseq (x :: l1) (x :: l2).

(** *** Disguise rate *)

Definition is_pass (p : Play) : bool := str_eq (Col.pff_RUNPASS p) "P".

(** Both the shown and the played MOFO code are present. *)
Definition mofo_valid (p : Play) : bool :=
  notna (Col.pff_MOFOCSHOWN p) && notna (Col.pff_MOFOCPLAYED p).

(** A disguise play: both codes present and different. *)
Definition disguise_play (p : Play) : bool :=
  mofo_valid p && str_ne (Col.pff_MOFOCSHOWN p) (Col.pff_MOFOCPLAYED p).

(** Disguise plays over MOFO-valid pass plays, times 100; 0 when the scope
    has no MOFO-valid pass play. *)
Definition disguise_pct_spec (scope : DataFrame) : Q :=
  let valid := List.length (filter (fun p => is_pass p && mofo_valid p) scope) in
  let disguised := List.length (filter (fun p => is_pass p && disguise_play p) scope) in
  match valid with
  | O => 0%Q
  | _ => (inject_Z (Z.of_nat disguised) / inject_Z (Z.of_nat valid) * 100)%Q
  end.

(** A frame is derived when its calculated columns are the ones that
    [add_calculated_columns] assigns. *)
Definition derived (df : DataFrame) : Prop := add_calculated_columns df = df.

(** *** Ranking *)

(** [p] is the position of the first element of [l] equal to [v]. *)
Definition first_position (l : list Q) (v : Q) (p : nat) : Prop :=
  (exists x, nth_error l p = Some x /\ x == v)%Q /\
  (forall i y, (i < p)%nat -> nth_error l i = Some y -> ~ (y == v)%Q).

(** The number of teams whose value equals [v]. *)
Definition teams_at (table : list Q) (v : Q) : nat :=
  List.length (filter (fun x => Qeq_bool x v) table).

Definition descending (l : list Q) : Prop :=
  StronglySorted (fun a b => (b <= a)%Q) l.

(** *** Sums of percentages *)

Definition Qsum (l : list Q) : Q := fold_right Qplus 0%Q l.

(* ================================================================== *)
(** ** Sample rows *)
(* ================================================================== *)

(** A row with the given cells, every other raw cell null and every
    calculated cell 0 / null. *)
Definition sample_play (offteam defteam week clock runpass dropback : option string)
    (playaction : option Z) (shown played package : option string) : Play :=
  {| Col.pff_OFFTEAM := offteam;
     Col.pff_DEFTEAM := defteam;
     Col.pff_WEEK := week;
     Col.pff_QUARTER := None;
     Col.pff_DOWN := None;
     Col.pff_DISTANCE := None;
     Col.pff_YARDS_TO_GOAL_LINE := None;
     Col.pff_CLOCK := clock;
     Col.pff_RUNPASS := runpass;
     Col.pff_RUNCONCEPTPRIMARY := None;
     Col.pff_DROPBACKTYPE := dropback;
     Col.pff_PLAYACTION := playaction;
     Col.pff_OFF_PERSONNEL_GROUP := None;
     Col.pff_OFFFORMATIONGROUP := None;
     Col.pff_SHIFTMOTION := None;
     Col.pff_DEF_PACKAGE := package;
     Col.pff_BLITZDOG := None;
     Col.pff_PASSRUSHPLAYERS := None;
     Col.pff_PASS_COVERAGE_BASIC := None;
     Col.pff_MOFOCSHOWN := shown;
     Col.pff_MOFOCPLAYED := played;
     Col.minutes_remaining := 0;
     Col.pff_OFFFORMATIONGROUP_NORM := None;
     Col.is_run := 0;
     Col.has_motion := 0;
     Col.is_play_action := 0;
     Col.is_standard_dropback := 0;
     Col.pff_PASS_COVERAGE_NORMALIZED := None;
     Col.num_pass_rushers := 0;
     Col.is_blitz := 0;
     Col.is_man_coverage := 0;
     Col.is_mofo := 0;
     Col.is_disguise := 0;
     Col.has_mofo_data := 0 |}.

(** A play of team [offteam] against [defteam] in week [week]. *)
Definition play_in_week (offteam defteam week : string) : Play :=
  sample_play (Some offteam) (Some defteam) (Some week) (Some "12:00")
              (Some "P") (Some "SD") (Some 0) None None None.

(** A filter specification with no criterion at all. *)
Definition no_filters : Filters :=
  {| team := None; weeks := None; quarters := None; time_range := None;
     downs := None; yards_to_go_range := None; yardline_range := None |}.

Definition only_weeks (ws : list string) : Filters :=
  {| team := None; weeks := Some ws; quarters := None; time_range := None;
     downs := None; yards_to_go_range := None; yardline_range := None |}.

Definition only_team (t : string) : Filters :=
  {| team := Some t; weeks := None; quarters := None; time_range := None;
     downs := None; yards_to_go_range := None; yardline_range := None |}.

(** A handoff recorded with a dropback type: run play, "SD", no play action. *)
Definition run_play_with_dropback : Play :=
  sample_play (Some "BUF") (Some "KC") (Some "1") (Some "12:00")
              (Some "R") (Some "SD") (Some 0) None None None.

(** A straight dropback whose play-action cell is null. *)
Definition dropback_null_play_action : Play :=
  sample_play (Some "BUF") (Some "KC") (Some "1") (Some "12:00")
              (Some "P") (Some "SD") None None None None.

(** A pass play of defense package [package] with the given MOFO codes. *)
Definition pass_play_mofo (package : string) (shown played : option string) : Play :=
  sample_play (Some "BUF") (Some "KC") (Some "1") (Some "12:00")
              (Some "P") (Some "SD") (Some 0) shown played (Some package).

(** Five derived plays: in package "Nickel" a disguise and a pass play
    without disguise, both with the two MOFO codes; in package "Dime" two
    pass plays that lack a code; and a run play without package. *)
Definition sample_defense_frame : DataFrame :=
  add_calculated_columns
    [pass_play_mofo "Nickel" (Some "O") (Some "C");
     pass_play_mofo "Nickel" (Some "C") (Some "C");
     pass_play_mofo "Dime" None (Some "C");
     pass_play_mofo "Dime" None None;
     run_play_with_dropback].

(* ================================================================== *)
(** ** Loading: cleaning and the processed frame *)
(* ================================================================== *)

(** [clean_data]: only the plays whose run/pass code is 'P' or 'R'. *)
Definition clean_data (df : DataFrame) : DataFrame :=
  filter (fun p => str_isin (Col.pff_RUNPASS p) ["P"; "R"]) df.

(** [load_and_process_data] of the dashboard, after the file is read:
    cleaning, then derivation. *)
Definition load_and_process_data (loaded : DataFrame) : DataFrame :=
  let df := clean_data loaded in
  let df := add_calculated_columns df in
  df.

(** The number of teams whose value is strictly above [v]. *)
Definition teams_above (table : list Q) (v : Q) : nat :=
  List.length (filter (fun x => negb (Qle_bool x v)) table).

(** [filters] with the team criterion set to [t]. *)
Definition with_team (f : Filters) (t : option string) : Filters :=
  {| team := t;
     weeks := weeks f;
     quarters := quarters f;
     time_range := time_range f;
     downs := downs f;
     yards_to_go_range := yards_to_go_range f;
     yardline_range := yardline_range f |}.

(* ================================================================== *)
(** ** Texts *)
(* ================================================================== *)

(** Decimal digits only. *)
Fixpoint all_digits (s : string) : bool :=
  match s with
  | EmptyString => true
  | String c r => Py.is_digit c && all_digits r
  end.

(** ASCII characters only: the texts on which [Py.strip], [Py.upper] and
    [Py.py_int] are Python's. *)
Definition ascii_text (s : string) : bool :=
  forallb (fun c => (nat_of_ascii c <? 128)%nat) (list_ascii_of_string s).

(** The largest number of digits that [int] and [str] convert in one go
    (Python's default limit, which the embedding does not model). *)
Definition max_str_digits : Z := 4300.

(* ================================================================== *)
(** ** Display helpers *)
(* ================================================================== *)

(** [rank.replace('t-', '')]: every occurrence of "t-" taken out, scanning
    from the left. *)
Fixpoint remove_tie_marks (s : string) : string :=
  match s with
  | String c (String d r as tl) =>
      if Ascii.eqb c "t" && Ascii.eqb d "-" then remove_tie_marks r
      else String c (remove_tie_marks tl)
  | _ => s
  end.

(** [s.endswith(c)] for one character. *)
Fixpoint endswith_char (s : string) (c : ascii) : bool :=
  match s with
  | EmptyString => false
  | String a EmptyString => Ascii.eqb a c
  | String _ r => endswith_char r c
  end.

(** [format_percentage_with_rank]: "45.2% (12th)", "45.2% (t-12th)", or the
    bare percentage when the rank is the sentinel; "-" for a null value. *)
Definition format_percentage_with_rank (value : option Q) (rank : string) : string :=
  match value with
  | None => "-"
  | Some v =>
      if String.eqb rank "-" then Py.format_1f v ++ "%"
      else
        let rank_num := remove_tie_marks rank in
        if String.prefix "t-" rank then
          Py.format_1f v ++ "% (t-" ++ rank_num ++ "th)"
        else
          let suffix :=
            if endswith_char rank_num "1" && negb (String.eqb rank_num "11") then "st"
            else if endswith_char rank_num "2" && negb (String.eqb rank_num "12") then "nd"
            else if endswith_char rank_num "3" && negb (String.eqb rank_num "13") then "rd"
            else "th" in
          Py.format_1f v ++ "% (" ++ rank_num ++ suffix ++ ")"
  end.

(** The suffix that the formatter gives to rank [n], read as a number. *)
Definition ordinal_suffix (n : nat) : string :=
  if ((n mod 10 =? 1) && negb (n =? 11))%nat then "st"
  else if ((n mod 10 =? 2) && negb (n =? 12))%nat then "nd"
  else if ((n mod 10 =? 3) && negb (n =? 13))%nat then "rd"
  else "th".

(** The English ordinal suffix. *)
Definition english_suffix (n : nat) : string :=
  if ((n mod 100 =? 11) || (n mod 100 =? 12) || (n mod 100 =? 13))%nat then "th"
  else if (n mod 10 =? 1)%nat then "st"
  else if (n mod 10 =? 2)%nat then "nd"
  else if (n mod 10 =? 3)%nat then "rd"
  else "th".

(** [s.isdigit()] on ASCII text: at least one character, all of them
    decimal digits. *)
Definition str_isdigit (s : string) : bool :=
  match s with
  | EmptyString => false
  | String _ _ => all_digits s
  end.

Definition playoff_order : list string := ["WC"; "DP"; "CC"; "SB"].

(** [int(week)] for each text of a list; [None] when one of them raises. *)
Fixpoint ints_of (texts : list string) : option (list Z) :=
  match texts with
  | [] => Some []
  | week :: rest =>
      match Py.py_int week, ints_of rest with
      | Some n, Some ns => Some (n :: ns)
      | _, _ => None
      end
  end.

(** [sort_weeks] of the dashboard: the numeric weeks in ascending order,
    then the playoff rounds in their fixed order. *)
Definition sort_weeks (week_list : list string) : option (list string) :=
  match ints_of (filter str_isdigit week_list) with
  | None => None
  | Some numeric_weeks =>
      let playoff_weeks := filter (fun week => negb (str_isdigit week)) week_list in
      let numeric_weeks := sort_by Z.leb numeric_weeks in
      let playoff_weeks_sorted :=
        filter (fun w => Py.in_list w playoff_weeks) playoff_order in
      Some (map Py.str_of_Z numeric_weeks ++ playoff_weeks_sorted)%list
  end.

(* ================================================================== *)
(** ** Facts about the helpers *)
(* ================================================================== *)

Section ListFacts.
Context {A : Type}.

Lemma filter_true (l : list A) : filter (fun _ => true) l = l.
Proof. induction l as [|x l IH]; simpl; congruence. Qed.

Lemma filter_fuse (f g : A -> bool) (l : list A) :
  filter g (filter f l) = filter (fun x => f x && g x) l.
Proof.
  induction l as [|x l IH]; simpl; [reflexivity|].
  destruct (f x); simpl; [destruct (g x)|]; congruence.
Qed.

Lemma filter_Subseq (f : A -> bool) (l : list A) : Subseq (filter f l) l.
Proof.
  induction l as [|x l IH]; simpl; [constructor|].
  destruct (f x); now constructor.
Qed.

Lemma filter_all (f : A -> bool) (l : list A) :
  (forall x, In x l -> f x = true) -> filter f l = l.
Proof.
  induction l as [|x l IH]; simpl; intros H; [reflexivity|].
  rewrite (H x (or_introl eq_refl)), IH; auto.
Qed.
End ListFacts.

Lemma in_list_iff (x : string) (l : list string) :
  Py.in_list x l = true <-> In x l.
Proof.
  unfold Py.in_list. rewrite existsb_exists. split.
  - intros [y [Hy E]]. apply String.eqb_eq in E. now subst.
  - intros H. exists x. split; [assumption | apply String.eqb_refl].
Qed.

Lemma str_eq_iff (x : option string) (s : string) :
  str_eq x s = true <-> x = Some s.
Proof.
  destruct x as [v|]; simpl.
  - rewrite String.eqb_eq. split; congruence.
  - split; discriminate.
Qed.

Lemma num_isin_iff (x : option Z) (l : list Z) :
  num_isin x l = true <-> exists v, x = Some v /\ In v l.
Proof.
  destruct x as [v|]; simpl.
  - rewrite existsb_exists. split.
    + intros [y [Hy E]]. apply Z.eqb_eq in E. subst. now exists y.
    + intros [w [E Hw]]. inversion E; subst. exists w. now rewrite Z.eqb_refl.
  - split; [discriminate | intros [v [E _]]; discriminate].
Qed.

Lemma num_between_iff (x : option Z) (lo hi : Z) :
  num_between x lo hi = true <-> exists v, x = Some v /\ lo <= v <= hi.
Proof.
  destruct x as [v|]; simpl.
  - rewrite andb_true_iff, !Z.leb_le. split.
    + intros H. now exists v.
    + intros [w [E H]]. inversion E; subst. assumption.
  - split; [discriminate | intros [v [E _]]; discriminate].
Qed.

(** *** Each step of the filter is a [filter] by its criterion *)

Lemma team_filter_ok f df : team_filter f df = filter (team_ok f) df.
Proof.
  unfold team_filter, team_ok. destruct (team f) as [t|].
  - destruct (String.eqb t ""); [now rewrite filter_true | reflexivity].
  - now rewrite filter_true.
Qed.

Lemma week_filter_ok f df : week_filter f df = filter (weeks_ok f) df.
Proof.
  unfold week_filter, weeks_ok.
  destruct (weeks f) as [[|w ws]|]; now rewrite ?filter_true.
Qed.

Lemma quarter_filter_ok f df : quarter_filter f df = filter (quarters_ok f) df.
Proof.
  unfold quarter_filter, quarters_ok.
  destruct (quarters f) as [[|q qs]|]; now rewrite ?filter_true.
Qed.

Lemma time_filter_ok f df : time_filter f df = filter (time_ok f) df.
Proof.
  unfold time_filter, time_ok.
  destruct (time_range f) as [[lo hi]|]; now rewrite ?filter_true.
Qed.

Lemma down_filter_ok f df : down_filter f df = filter (downs_ok f) df.
Proof.
  unfold down_filter, downs_ok.
  destruct (downs f) as [[|d ds]|]; now rewrite ?filter_true.
Qed.

Lemma yards_to_go_filter_ok f df :
  yards_to_go_filter f df = filter (yards_to_go_ok f) df.
Proof.
  unfold yards_to_go_filter, yards_to_go_ok.
  destruct (yards_to_go_range f) as [[lo hi]|]; now rewrite ?filter_true.
Qed.

Lemma yardline_filter_ok f df : yardline_filter f df = filter (yardline_ok f) df.
Proof.
  unfold yardline_filter, yardline_ok.
  destruct (yardline_range f) as [[lo hi]|]; now rewrite ?filter_true.
Qed.

(** The six situational steps, applied in a row, keep the rows that meet
    the six criteria. *)
Lemma situational_steps f df :
  yardline_filter f (yards_to_go_filter f (down_filter f
    (time_filter f (quarter_filter f (week_filter f df)))))
  = filter (situation_ok f) df.
Proof.
  rewrite yardline_filter_ok, yards_to_go_filter_ok, down_filter_ok,
          time_filter_ok, quarter_filter_ok, week_filter_ok.
  rewrite !filter_fuse. apply filter_ext. intros p.
  unfold situation_ok. now rewrite !andb_assoc.
Qed.

Lemma filter_data_is_filter df f :
  filter_data df f = filter (criteria_metb f) df.
Proof.
  unfold filter_data. rewrite situational_steps, team_filter_ok, filter_fuse.
  reflexivity.
Qed.

Lemma criteria_metb_iff f p : criteria_metb f p = true <-> criteria_met f p.
Proof.
  unfold criteria_metb, situation_ok, criteria_met.
  rewrite !andb_true_iff.
  unfold team_ok, weeks_ok, quarters_ok, time_ok, downs_ok, yards_to_go_ok, yardline_ok.
  split.
  - intros [Ht [[[[[Hw Hq] Hti] Hd] Hy] Hl]].
    repeat split.
    + intros t E Hne. rewrite E in Ht.
      destruct (String.eqb_spec t ""); [contradiction | now apply str_eq_iff].
    + intros ws E Hne. rewrite E in Hw. destruct ws; [contradiction | now apply in_list_iff].
    + intros qs E Hne. rewrite E in Hq. destruct qs; [contradiction | now apply num_isin_iff].
    + rewrite H in Hti. apply andb_true_iff in Hti. apply Z.leb_le. tauto.
    + rewrite H in Hti. apply andb_true_iff in Hti. apply Z.leb_le. tauto.
    + intros ds E Hne. rewrite E in Hd. destruct ds; [contradiction | now apply num_isin_iff].
    + intros lo hi E. rewrite E in Hy. now apply num_between_iff.
    + intros lo hi E. rewrite E in Hl. now apply num_between_iff.
  - intros (Ht & Hw & Hq & Hti & Hd & Hy & Hl).
    repeat split.
    + destruct (team f) as [t|]; [|reflexivity].
      destruct (String.eqb_spec t ""); [reflexivity|].
      apply str_eq_iff. now apply Ht.
    + destruct (weeks f) as [[|w ws]|]; try reflexivity.
      apply in_list_iff. now apply Hw.
    + destruct (quarters f) as [[|q qs]|]; try reflexivity.
      apply num_isin_iff. now apply Hq.
    + destruct (time_range f) as [[lo hi]|]; [|reflexivity].
      specialize (Hti lo hi eq_refl). apply andb_true_iff. rewrite !Z.leb_le. exact Hti.
    + destruct (downs f) as [[|d ds]|]; try reflexivity.
      apply num_isin_iff. now apply Hd.
    + destruct (yards_to_go_range f) as [[lo hi]|]; [|reflexivity].
      apply num_between_iff. now apply Hy.
    + destruct (yardline_range f) as [[lo hi]|]; [|reflexivity].
      apply num_between_iff. now apply Hl.
Qed.

(* ================================================================== *)
(** ** The filter engine *)
(* ================================================================== *)

(** Under a team criterion, every row that [filter_data] returns has that
    team as its offense team. *)
Lemma filter_data_offense_team df f t p :
  team f = Some t -> t <> "" -> In p (filter_data df f) -> Col.pff_OFFTEAM p = Some t.
Proof.
  intros Et Hne Hin. rewrite filter_data_is_filter in Hin.
  apply filter_In in Hin. destruct Hin as [_ Hc].
  apply criteria_metb_iff in Hc. destruct Hc as [Ht _]. now apply Ht.
Qed.

Lemma defense_tab_filter_is_filter df f t :
  defense_tab_filter df f t
  = filter (fun p => str_eq (Col.pff_DEFTEAM p) t && situation_ok f p) df.
Proof.
  unfold defense_tab_filter. rewrite situational_steps. apply filter_fuse.
Qed.

(** C5. For every record set and every filter specification, [filter_data]
    returns exactly the rows that satisfy the conjunction of the criteria
    present in the specification (membership for weeks, quarters and downs,
    inclusive ranges for time remaining, distance and yardline, exact match
    for the team), an absent or empty criterion asking nothing; the rows
    come out in their original order, and the input, a value, is left as it
    was.  With weeks "1" and "2" selected on a set holding weeks "1", "3",
    "2", "1", exactly the rows of weeks "1" and "2" come back, in order. *)
Theorem filter_data_conjunction :
  (forall (df : DataFrame) (filters : Filters),
      filter_data df filters = filter (criteria_metb filters) df
      /\ (forall p, criteria_metb filters p = true <-> criteria_met filters p)
      /\ (forall p, In p (filter_data df filters) <-> In p df /\ criteria_met filters p)
      /\ Subseq (filter_data df filters) df)
  /\ filter_data [play_in_week "BUF" "KC" "1"; play_in_week "BUF" "NYJ" "3";
                  play_in_week "MIA" "KC" "2"; play_in_week "KC" "BUF" "1"]
                 (only_weeks ["1"; "2"])
     = [play_in_week "BUF" "KC" "1"; play_in_week "MIA" "KC" "2";
        play_in_week "KC" "BUF" "1"].
Proof.
  split; [|reflexivity].
  intros df filters. rewrite filter_data_is_filter.
  split; [reflexivity|]. split; [apply criteria_metb_iff|]. split.
  - intros p. rewrite filter_In, criteria_metb_iff. reflexivity.
  - apply filter_Subseq.
Qed.

(** A row of week "3" is dropped by the week criterion: the membership
    clause of [filter_data_conjunction] at a concrete frame. *)
Lemma filter_data_conjunction_witness :
  ~ In (play_in_week "BUF" "NYJ" "3")
       (filter_data [play_in_week "BUF" "KC" "1"; play_in_week "BUF" "NYJ" "3"]
                    (only_weeks ["1"; "2"])).
Proof.
  intros Hin.
  destruct filter_data_conjunction as [Hall _].
  destruct (Hall [play_in_week "BUF" "KC" "1"; play_in_week "BUF" "NYJ" "3"]
                 (only_weeks ["1"; "2"])) as (_ & Hdec & Hmem & _).
  apply Hmem in Hin. destruct Hin as [_ Hc].
  apply Hdec in Hc. vm_compute in Hc. discriminate Hc.
Defined.

(** C6, as the code has it.  [filter_data] matches its team criterion on
    the offense-team column only: under a team criterion it returns the
    rows of that offense team that meet the other criteria, whatever their
    defense team.  The match on the defense-team column, with the other
    criteria unchanged, is made by the defense tab of the dashboard, which
    does not call [filter_data]. *)
Theorem team_criterion_columns :
  forall (df : DataFrame) (filters : Filters) (t : string),
    team filters = Some t -> t <> "" ->
    (forall p, In p (filter_data df filters) <->
               In p df /\ Col.pff_OFFTEAM p = Some t /\ situation_ok filters p = true)
    /\ (forall p, In p (defense_tab_filter df filters t) <->
                  In p df /\ Col.pff_DEFTEAM p = Some t /\ situation_ok filters p = true)
    /\ defense_tab_filter df filters t
       = filter (fun p => str_eq (Col.pff_DEFTEAM p) t && situation_ok filters p) df.
Proof.
  intros df filters t Et Hne.
  rewrite filter_data_is_filter, defense_tab_filter_is_filter.
  split; [|split; [|reflexivity]]; intros p; rewrite filter_In.
  - unfold criteria_metb, team_ok. rewrite Et.
    destruct (String.eqb_spec t ""); [contradiction|].
    rewrite andb_true_iff, str_eq_iff. reflexivity.
  - rewrite andb_true_iff, str_eq_iff. reflexivity.
Qed.

Lemma team_criterion_columns_witness :
  team (only_team "KC") = Some "KC" /\ "KC" <> ""
  /\ defense_tab_filter [play_in_week "BUF" "KC" "1"; play_in_week "KC" "BUF" "1"]
                        (only_team "KC") "KC"
     = filter (fun p => str_eq (Col.pff_DEFTEAM p) "KC" && situation_ok (only_team "KC") p)
              [play_in_week "BUF" "KC" "1"; play_in_week "KC" "BUF" "1"].
Proof.
  split; [reflexivity|]. split; [discriminate|].
  apply (team_criterion_columns
           [play_in_week "BUF" "KC" "1"; play_in_week "KC" "BUF" "1"]
           (only_team "KC") "KC"); [reflexivity | discriminate].
Defined.

(** C6, as stated, fails.  Asked for team "KC", [filter_data] drops the only
    play that "KC" defends, where a match on the defense-team column keeps
    it; and no invocation with a team criterion ever returns a row for its
    defense team alone. *)
Lemma filter_data_never_matches_defense_team :
  filter_data [play_in_week "BUF" "KC" "1"] (only_team "KC") = []
  /\ filter (fun p => str_eq (Col.pff_DEFTEAM p) "KC" && situation_ok (only_team "KC") p)
            [play_in_week "BUF" "KC" "1"]
     = [play_in_week "BUF" "KC" "1"]
  /\ ~ (exists (filters : Filters) (t : string) (df : DataFrame) (p : Play),
          team filters = Some t /\ t <> "" /\ In p (filter_data df filters)
          /\ Col.pff_DEFTEAM p = Some t /\ Col.pff_OFFTEAM p <> Some t).
Proof.
  split; [reflexivity|]. split; [reflexivity|].
  intros (filters & t & df & p & Et & Hne & Hin & _ & Hoff).
  apply Hoff. now apply (filter_data_offense_team df filters t).
Qed.

(* ================================================================== *)
(** ** Empty input, idempotence, the unused parameter *)
(* ================================================================== *)

(** C7. On the empty record set the overall offense aggregation returns
    [total_plays = 0], the four percentages 0 and no run concept: a value,
    not an error. *)
Theorem calculate_overall_tendencies_empty :
  calculate_overall_tendencies []
  = {| Overall.total_plays := 0;
       Overall.run_pct := 0;
       Overall.pa_pct := 0;
       Overall.db_pct := 0;
       Overall.motion_pct := 0;
       Overall.top_run_concepts := [] |}.
Proof. reflexivity. Qed.

Lemma add_defensive_columns_row_idem p :
  add_defensive_columns_row (add_defensive_columns_row p) = add_defensive_columns_row p.
Proof. destruct p; reflexivity. Qed.

Lemma add_calculated_row_idem p :
  add_defensive_columns_row (add_offensive_columns_row
    (add_defensive_columns_row (add_offensive_columns_row p)))
  = add_defensive_columns_row (add_offensive_columns_row p).
Proof. destruct p; reflexivity. Qed.

(** C8. Deriving the calculated columns twice gives the same frame as
    deriving them once; so does the defensive part of the derivation on its
    own. *)
Theorem add_calculated_columns_idempotent :
  forall df : DataFrame,
    add_calculated_columns (add_calculated_columns df) = add_calculated_columns df
    /\ add_defensive_columns (add_defensive_columns df) = add_defensive_columns df.
Proof.
  intros df. unfold add_calculated_columns, add_defensive_columns.
  rewrite !map_map. split; apply map_ext; intros p.
  - apply add_calculated_row_idem.
  - apply add_defensive_columns_row_idem.
Qed.

(** C10. The league table of the offense does not depend on its
    [category_column] argument, whatever is passed for it. *)
Theorem calculate_all_teams_tendencies_ignores_category :
  forall (C1 C2 : Type) (c1 : C1) (c2 : C2) (df : DataFrame) (filters : Filters),
    calculate_all_teams_tendencies df filters c1
    = calculate_all_teams_tendencies df filters c2.
Proof. reflexivity. Qed.

(* ================================================================== *)
(** ** Derived indicators *)
(* ================================================================== *)

Lemma In_add_calculated_columns df p :
  In p (add_calculated_columns df) <->
  exists q, In q df /\ p = add_defensive_columns_row (add_offensive_columns_row q).
Proof.
  unfold add_calculated_columns, add_defensive_columns. rewrite map_map, in_map_iff.
  split; intros [q [H1 H2]]; exists q; split; auto.
Qed.

Lemma str_isin_iff (x : option string) (l : list string) :
  str_isin x l = true <-> exists v, x = Some v /\ In v l.
Proof.
  destruct x as [v|]; simpl.
  - rewrite in_list_iff. split.
    + intros H. now exists v.
    + intros [w [E H]]. inversion E; subst. assumption.
  - split; [discriminate | intros [v [E _]]; discriminate].
Qed.

Lemma num_eq_iff (x : option Z) (n : Z) : num_eq x n = true <-> x = Some n.
Proof.
  destruct x as [v|]; simpl.
  - rewrite Z.eqb_eq. split; congruence.
  - split; discriminate.
Qed.

Lemma b2z_one (b : bool) : Z.b2z b = 1 <-> b = true.
Proof. destruct b; simpl; split; congruence. Qed.

(** C3, as the code has it.  On a derived row [is_standard_dropback] is 0 or
    1; when the play-action cell is not null it is 1 exactly when the
    dropback type is one of SD, SR, SL and the play-action flag is 0; and it
    is 1 only on rows whose dropback type is one of the three.  The run/pass
    indicator is not consulted. *)
Theorem is_standard_dropback_rule :
  forall (df : DataFrame) (p : Play),
    In p (add_calculated_columns df) ->
    (Col.is_standard_dropback p = 0 \/ Col.is_standard_dropback p = 1)
    /\ (Col.pff_PLAYACTION p <> None ->
        (Col.is_standard_dropback p = 1 <->
         (exists d, Col.pff_DROPBACKTYPE p = Some d /\ In d ["SD"; "SR"; "SL"])
         /\ Col.pff_PLAYACTION p = Some 0))
    /\ (Col.is_standard_dropback p = 1 ->
        exists d, Col.pff_DROPBACKTYPE p = Some d /\ In d ["SD"; "SR"; "SL"]).
Proof.
  intros df p Hin. apply In_add_calculated_columns in Hin.
  destruct Hin as [q [_ ->]]. cbn [add_defensive_columns_row add_offensive_columns_row
    Col.is_standard_dropback Col.pff_PLAYACTION Col.pff_DROPBACKTYPE].
  split; [|split].
  - destruct (str_isin _ _ && num_eq _ _); auto.
  - intros _. rewrite b2z_one, andb_true_iff, str_isin_iff, num_eq_iff. reflexivity.
  - rewrite b2z_one, andb_true_iff, str_isin_iff. tauto.
Qed.

Lemma is_standard_dropback_rule_witness :
  Col.is_standard_dropback
    (add_defensive_columns_row (add_offensive_columns_row (play_in_week "BUF" "KC" "1")))
  = 1.
Proof.
  destruct (is_standard_dropback_rule [play_in_week "BUF" "KC" "1"]
              (add_defensive_columns_row
                 (add_offensive_columns_row (play_in_week "BUF" "KC" "1"))))
    as (_ & Hiff & _).
  - simpl. left. reflexivity.
  - apply Hiff.
    + discriminate.
    + split; [|reflexivity]. exists "SD". split; [reflexivity | simpl; auto].
Defined.

(** C3, as stated, fails: a run play that carries dropback type "SD" and
    play-action flag 0 gets [is_standard_dropback = 1]. *)
Lemma standard_dropback_on_run_play :
  Col.pff_RUNPASS run_play_with_dropback = Some "R"
  /\ map Col.pff_RUNPASS (add_calculated_columns [run_play_with_dropback]) = [Some "R"]
  /\ map Col.is_standard_dropback (add_calculated_columns [run_play_with_dropback]) = [1].
Proof. repeat split. Qed.

(** The null play-action cell: [is_play_action] reads it as 0, while
    [is_standard_dropback] compares the cell itself with 0 and gets 0. *)
Lemma standard_dropback_null_play_action :
  map Col.is_play_action (add_calculated_columns [dropback_null_play_action]) = [0]
  /\ map Col.is_standard_dropback (add_calculated_columns [dropback_null_play_action]) = [0].
Proof. split; reflexivity. Qed.

(** *** Minutes remaining *)

Lemma digit_not_special (c : ascii) :
  Py.is_digit c = true ->
  Py.is_space c = false /\ Ascii.eqb c ":" = false /\ 0 <= Py.digit_value c <= 9.
Proof.
  destruct c as [[] [] [] [] [] [] [] []]; cbv; intros H; try discriminate H;
    repeat split; try reflexivity; discriminate.
Qed.

(** A text that starts with a digit carries no sign. *)
Lemma py_int_unsigned (s : string) (c : ascii) (r : string) :
  Py.is_digit c = true -> Py.strip s = String c r ->
  Py.py_int s = Py.int_digits 0 false (String c r).
Proof.
  intros Hd E. unfold Py.py_int. rewrite E.
  destruct c as [[] [] [] [] [] [] [] []]; vm_compute in Hd; try discriminate Hd;
    reflexivity.
Qed.

Lemma int_digits_nonneg (s : string) :
  forall acc seen v, 0 <= acc -> Py.int_digits acc seen s = Some v -> 0 <= v.
Proof.
  induction s as [|c r IH]; simpl; intros acc seen v Hacc H.
  - destruct seen; [now inversion H; subst | discriminate].
  - destruct (Py.is_digit c) eqn:Hd.
    + apply (IH (10 * acc + Py.digit_value c) true v); [|exact H].
      destruct (digit_not_special c Hd) as (_ & _ & Hv). lia.
    + destruct (Ascii.eqb c "_" && seen); [now apply (IH _ _ _ Hacc H) | discriminate].
Qed.






(* ================================================================== *)
(** ** Sorting and distinct values *)
(* ================================================================== *)

Section SortingFacts.
Context {A : Type}.
Variable le : A -> A -> bool.

Lemma insert_by_Permutation (x : A) (l : list A) :
  Permutation (insert_by le x l) (x :: l).
Proof.
  induction l as [|y t IH]; simpl; [reflexivity|].
  destruct (le x y); [reflexivity|].
  rewrite IH. apply perm_swap.
Qed.

Lemma sort_by_Permutation (l : list A) : Permutation (sort_by le l) l.
Proof.
  induction l as [|x t IH]; simpl; [reflexivity|].
  rewrite insert_by_Permutation. now constructor.
Qed.

Lemma In_sort_by (x : A) (l : list A) : In x (sort_by le l) <-> In x l.
Proof.
  split; apply Permutation_in;
    [apply sort_by_Permutation | symmetry; apply sort_by_Permutation].
Qed.

Hypothesis le_total : forall x y, le x y = false -> le y x = true.
Hypothesis le_trans : forall x y z, le x y = true -> le y z = true -> le x z = true.

Lemma insert_by_sorted (x : A) (l : list A) :
  StronglySorted (fun a b => le a b = true) l ->
  StronglySorted (fun a b => le a b = true) (insert_by le x l).
Proof.
  induction 1 as [|y t Hs IH Hall]; simpl.
  - repeat constructor.
  - destruct (le x y) eqn:E.
    + constructor; [now constructor|].
      constructor; [assumption|].
      rewrite Forall_forall in *. intros z Hz. eapply le_trans; eauto.
    + constructor; [assumption|].
      rewrite Forall_forall in *. intros z Hz.
      apply (Permutation_in _ (insert_by_Permutation x t)) in Hz.
      destruct Hz as [<-|Hz]; [now apply le_total | now apply Hall].
Qed.

Lemma sort_by_sorted (l : list A) :
  StronglySorted (fun a b => le a b = true) (sort_by le l).
Proof.
  induction l as [|x t IH]; simpl; [constructor | now apply insert_by_sorted].
Qed.
End SortingFacts.

Section DistinctFacts.
Context {A : Type}.
Variable eqb : A -> A -> bool.
Hypothesis eqb_eq : forall x y, eqb x y = true <-> x = y.

Lemma In_unique (x : A) (l : list A) : In x (unique eqb l) <-> In x l.
Proof.
  induction l as [|y t IH]; simpl; [reflexivity|].
  rewrite filter_In, IH. split.
  - intros [E|[H _]]; auto.
  - intros [E|H]; [now left|].
    destruct (eqb y x) eqn:Eyx.
    + left. now apply eqb_eq.
    + right. split; [assumption | reflexivity].
Qed.

Lemma NoDup_unique (l : list A) : NoDup (unique eqb l).
Proof.
  induction l as [|y t IH]; simpl; constructor.
  - rewrite filter_In. intros [_ H].
    assert (E : eqb y y = true) by now apply eqb_eq.
    rewrite E in H. discriminate.
  - now apply NoDup_filter.
Qed.
End DistinctFacts.

Lemma In_dropna {A : Type} (x : A) (l : list (option A)) :
  In x (dropna l) <-> In (Some x) l.
Proof.
  induction l as [|[y|] t IH]; simpl.
  - reflexivity.
  - rewrite IH. split; intros [E|H]; auto; left; congruence.
  - rewrite IH. split; [auto | intros [E|H]; [discriminate | assumption]].
Qed.

(** The keys of [groupby]: distinct, and exactly the non-null values of
    the category column. *)
Lemma groupby_keys (category_column : Play -> option string) (df : DataFrame) :
  let keys := sort_by String.leb (unique String.eqb (dropna (map category_column df))) in
  NoDup keys
  /\ (forall c, In c keys <-> exists p, In p df /\ category_column p = Some c)
  /\ groupby category_column df
     = map (fun c => (c, filter (fun p => str_eq (category_column p) c) df)) keys.
Proof.
  cbv zeta. split; [|split].
  - eapply Permutation_NoDup; [symmetry; apply sort_by_Permutation|].
    apply NoDup_unique. apply String.eqb_eq.
  - intros c. rewrite In_sort_by, (In_unique _ String.eqb_eq), In_dropna, in_map_iff.
    split; intros [p [H1 H2]]; exists p; auto.
  - reflexivity.
Qed.

(** *** The descending sort of the ranking *)

Lemma sort_values_desc_Permutation (values : list Q) :
  Permutation (sort_values_desc values) values.
Proof. apply sort_by_Permutation. Qed.

Lemma StronglySorted_weaken {A : Type} (R R' : A -> A -> Prop) (l : list A) :
  (forall a b, R a b -> R' a b) -> StronglySorted R l -> StronglySorted R' l.
Proof.
  intros Himp. induction 1 as [|x t Hs IH Hall]; constructor; [assumption|].
  eapply Forall_impl; [|exact Hall]. intros b. apply Himp.
Qed.

Lemma sort_values_desc_descending (values : list Q) :
  descending (sort_values_desc values).
Proof.
  unfold descending, sort_values_desc.
  apply (StronglySorted_weaken (fun a b => Qle_bool b a = true)).
  - intros a b H. now apply Qle_bool_iff.
  - apply sort_by_sorted.
    + intros x y H. apply Qle_bool_iff.
      apply Qlt_le_weak, Qnot_le_lt. intros C. apply Qle_bool_iff in C. congruence.
    + intros x y z H1 H2. apply Qle_bool_iff. apply Qle_bool_iff in H1, H2.
      now apply Qle_trans with y.
Qed.

(* ================================================================== *)
(** ** League ranking *)
(* ================================================================== *)

Lemma np_where_none (l : list Q) (v : Q) (i : nat) :
  (forall x, In x l -> ~ (x == v)%Q) -> np_where (eq_mask l v) i = [].
Proof.
  revert i. induction l as [|y t IH]; simpl; intros i H; [reflexivity|].
  destruct (Qeq_bool y v) eqn:E.
  - apply Qeq_bool_iff in E. exfalso. apply (H y); auto.
  - apply IH. intros x Hx. apply H. now right.
Qed.

(** The first index that [np.where] reports is the first position of the
    value. *)
Lemma np_where_first (l : list Q) (v : Q) :
  forall p i, first_position l v p ->
    exists rest, np_where (eq_mask l v) i = (i + p)%nat :: rest.
Proof.
  induction l as [|y t IH]; intros p i [[x [Hn Hx]] Hfirst].
  - destruct p; discriminate Hn.
  - simpl. destruct (Qeq_bool y v) eqn:E.
    + destruct p as [|p'].
      * rewrite Nat.add_0_r. eauto.
      * exfalso. apply Qeq_bool_iff in E.
        apply (Hfirst 0%nat y); [lia | reflexivity | assumption].
    + destruct p as [|p'].
      * simpl in Hn. inversion Hn; subst.
        apply Qeq_bool_iff in Hx. congruence.
      * destruct (IH p' (S i)) as [rest Hr].
        { split; [now exists x|].
          intros j z Hj Hz. apply (Hfirst (S j) z); [lia | exact Hz]. }
        exists rest. rewrite Hr. f_equal. lia.
Qed.

Lemma first_position_exists (l : list Q) (v : Q) :
  (exists x, In x l /\ (x == v)%Q) -> exists p, first_position l v p.
Proof.
  induction l as [|y t IH]; intros [x [Hin Hx]]; [destruct Hin|].
  destruct (Qeq_bool y v) eqn:E.
  - exists 0%nat. split.
    + exists y. split; [reflexivity | now apply Qeq_bool_iff].
    + intros i z Hi. lia.
  - apply Qeq_bool_neq in E.
    destruct Hin as [->|Hin]; [contradiction|].
    destruct IH as [p [[z [Hn Hz]] Hfirst]]; [now exists x|].
    exists (S p). split.
    + now exists z.
    + intros [|j] w Hj Hw.
      * simpl in Hw. inversion Hw; subst. assumption.
      * apply (Hfirst j w); [lia | exact Hw].
Qed.

Lemma np_sum_eq_mask (l : list Q) (v : Q) : np_sum (eq_mask l v) = teams_at l v.
Proof.
  unfold np_sum, eq_mask, teams_at.
  induction l as [|y t IH]; simpl; [reflexivity|].
  destruct (Qeq_bool y v); simpl; now rewrite IH.
Qed.

Lemma filter_length_Permutation {A : Type} (f : A -> bool) (l l' : list A) :
  Permutation l l' -> List.length (filter f l) = List.length (filter f l').
Proof.
  induction 1 as [|x l l' _ IH|x y l|l l' l'' _ IH1 _ IH2]; simpl.
  - reflexivity.
  - destruct (f x); simpl; now rewrite IH.
  - destruct (f x), (f y); reflexivity.
  - now rewrite IH1.
Qed.

(** C1. For every table of values and every probe value, the rank
    operation sorts the values in descending order; when no value equals
    the probe it returns "-"; otherwise it returns the position of the
    first sorted value equal to the probe, plus one, as a decimal string,
    prefixed with "t-" when more than one team has exactly that value.  On
    the values 50, 50, 30 the rank of 50 is "t-1" and the rank of 30 is
    "3". *)
Theorem rank_of_first_position :
  (forall (table : list Q) (value : Q),
      Permutation (sort_values_desc table) table
      /\ descending (sort_values_desc table)
      /\ ((forall x, In x table -> ~ (x == value)%Q) -> rank_of table value = "-")
      /\ ((exists x, In x table /\ (x == value)%Q) ->
          exists p, first_position (sort_values_desc table) value p)
      /\ (forall p, first_position (sort_values_desc table) value p ->
            rank_of table value
            = (if (1 <? teams_at table value)%nat then "t-" else "")
                ++ Py.str_of_nat (p + 1)))
  /\ rank_of [50; 50; 30]%Q 50%Q = "t-1"
  /\ rank_of [50; 50; 30]%Q 30%Q = "3".
Proof.
  split; [|split; reflexivity].
  intros table value.
  split; [apply sort_values_desc_Permutation|].
  split; [apply sort_values_desc_descending|].
  split; [|split].
  - intros Hnone. unfold rank_of.
    rewrite np_where_none; [reflexivity|].
    intros x Hx. apply Hnone.
    now apply (Permutation_in _ (sort_values_desc_Permutation table)).
  - intros [x [Hin Hx]]. apply first_position_exists. exists x.
    split; [|assumption].
    apply Permutation_in with table; [|assumption].
    symmetry. apply sort_values_desc_Permutation.
  - intros p Hp. unfold rank_of.
    destruct (np_where_first _ _ p 0%nat Hp) as [rest Hr]. rewrite Hr.
    rewrite np_sum_eq_mask. unfold teams_at.
    rewrite (filter_length_Permutation _ _ _ (sort_values_desc_Permutation table)).
    simpl. destruct (1 <? _)%nat; reflexivity.
Qed.

(** The rank of 30 among 50, 30, 50: third, through the first-position
    clause. *)
Lemma rank_of_first_position_witness :
  rank_of [50; 30; 50]%Q 30%Q = "3".
Proof.
  destruct rank_of_first_position as [Hall _].
  destruct (Hall [50; 30; 50]%Q 30%Q) as (_ & _ & _ & _ & Hrank).
  apply (Hrank 2%nat). split.
  - exists 30%Q. split; reflexivity.
  - intros [|[|i]] y Hi Hy; try lia; inversion Hy; subst; discriminate.
Defined.

(* ================================================================== *)
(** ** The disguise rate *)
(* ================================================================== *)

Lemma map_fixed {A : Type} (f : A -> A) (l : list A) :
  map f l = l -> forall x, In x l -> f x = x.
Proof.
  induction l as [|y t IH]; simpl; intros E x Hx; [destruct Hx|].
  injection E as E1 E2.
  destruct Hx as [<-|Hx]; [exact E1 | now apply IH].
Qed.

Lemma derived_rows (df : DataFrame) :
  derived df ->
  forall p, In p df -> add_defensive_columns_row (add_offensive_columns_row p) = p.
Proof.
  unfold derived, add_calculated_columns, add_defensive_columns.
  rewrite map_map. apply map_fixed.
Qed.

(** On a derived row the two MOFO indicators say what their names say. *)
Lemma derived_row_mofo (p : Play) :
  add_defensive_columns_row (add_offensive_columns_row p) = p ->
  Col.is_disguise p = Z.b2z (disguise_play p)
  /\ Col.has_mofo_data p = Z.b2z (mofo_valid p).
Proof.
  intros E. split.
  - transitivity (Col.is_disguise (add_defensive_columns_row (add_offensive_columns_row p)));
      [now rewrite E|].
    unfold disguise_play, mofo_valid. cbn.
    destruct (notna (Col.pff_MOFOCSHOWN p) && notna (Col.pff_MOFOCPLAYED p)); reflexivity.
  - transitivity (Col.has_mofo_data (add_defensive_columns_row (add_offensive_columns_row p)));
      [now rewrite E | reflexivity].
Qed.

Lemma col_sum_indicator (col : Play -> Z) (b : Play -> bool) (l : DataFrame) :
  (forall p, In p l -> col p = Z.b2z (b p)) ->
  col_sum col l = Z.of_nat (List.length (filter b l)).
Proof.
  unfold col_sum. induction l as [|x t IH]; intros H; [reflexivity|].
  cbn [map fold_right filter]. rewrite IH by (intros p Hp; apply H; now right).
  rewrite (H x (or_introl eq_refl)).
  destruct (b x); cbn [Z.b2z List.length]; lia.
Qed.

Lemma pass_plays_of_subset (l : DataFrame) (p : Play) :
  In p (pass_plays_of l) -> In p l.
Proof. unfold pass_plays_of. rewrite filter_In. tauto. Qed.

(** The disguise percentage of a scope, as both aggregations compute it,
    is the one of the specification. *)
Lemma disguise_rate_scope (l : DataFrame) :
  (forall p, In p l -> add_defensive_columns_row (add_offensive_columns_row p) = p) ->
  (if (0 <? List.length (pass_plays_of l))%nat
   then disguise_rate (pass_plays_of l) else 0%Q)
  = disguise_pct_spec l.
Proof.
  intros Hd.
  assert (Hvalid : filter (fun p => Col.has_mofo_data p =? 1) (pass_plays_of l)
                   = filter (fun p => is_pass p && mofo_valid p) l).
  { unfold pass_plays_of. rewrite filter_fuse. apply filter_ext_in. intros p Hp.
    unfold is_pass. f_equal.
    destruct (derived_row_mofo p (Hd p Hp)) as [_ ->]. now destruct (mofo_valid p). }
  assert (Hdisg : col_sum Col.is_disguise (filter (fun p => is_pass p && mofo_valid p) l)
                  = Z.of_nat (List.length (filter (fun p => is_pass p && disguise_play p) l))).
  { rewrite (col_sum_indicator _ disguise_play).
    - rewrite filter_fuse. do 2 f_equal. apply filter_ext. intros p.
      unfold disguise_play. destruct (is_pass p), (mofo_valid p); reflexivity.
    - intros p Hp. apply filter_In in Hp. now apply derived_row_mofo, Hd. }
  unfold disguise_rate, disguise_pct_spec. rewrite Hvalid, Hdisg.
  destruct (List.length (pass_plays_of l)) as [|n] eqn:En.
  - apply length_zero_iff_nil in En.
    rewrite <- Hvalid, En in *. reflexivity.
  - cbn [Nat.ltb Nat.leb].
    destruct (List.length (filter (fun p => is_pass p && mofo_valid p) l)); reflexivity.
Qed.

(** The rows of the per-category defense table: one per key, computed on
    the rows of that key. *)
Lemma defensive_category_rows (df : DataFrame)
    (category_column : Play -> option string) (rows : list DefCategoryRow.t)
    (r : DefCategoryRow.t) :
  calculate_defensive_category_tendencies df category_column = Some rows ->
  In r rows ->
  r = defensive_category_row (List.length df) (DefCategoryRow.Category r)
        (filter (fun p => str_eq (category_column p) (DefCategoryRow.Category r)) df).
Proof.
  unfold calculate_defensive_category_tendencies.
  destruct (List.length df =? 0)%nat; [intros [= <-] []|].
  destruct (map _ (groupby category_column df)) as [|r0 rs] eqn:Em; [discriminate|].
  intros Hrows Hin. injection Hrows as <-.
  apply (In_sort_by _ r (r0 :: rs)) in Hin. rewrite <- Em in Hin.
  apply in_map_iff in Hin. destruct Hin as [[c g] [<- Hin]].
  destruct (groupby_keys category_column df) as (_ & _ & Eg).
  rewrite Eg in Hin. apply in_map_iff in Hin. destruct Hin as [c' [E _]].
  inversion E; subst. reflexivity.
Qed.

(** C2. On a derived record set, the defensive [Disguise_Pct] is the number
    of disguise plays over the number of pass plays that have both MOFO
    codes, times 100, and exactly 0 when the scope has no such pass play;
    this holds for the overall aggregation and, group by group, for the
    per-category one.  In the sample frame (four pass plays, two of them
    with both codes, one of these a disguise, and one run play) the overall
    rate is 50, neither 25 nor 20; per package it is 50 for "Nickel" and the
    value 0 for "Dime", whose pass plays all lack a code. *)
Theorem disguise_pct_over_mofo_valid_pass_plays :
  (forall df : DataFrame,
      derived df ->
      DefOverall.disguise_pct (calculate_defensive_overall_tendencies df)
      = disguise_pct_spec df
      /\ (List.length (filter (fun p => is_pass p && mofo_valid p) df) = 0%nat ->
          DefOverall.disguise_pct (calculate_defensive_overall_tendencies df) = 0%Q)
      /\ (forall (category_column : Play -> option string)
                 (rows : list DefCategoryRow.t) (r : DefCategoryRow.t),
            calculate_defensive_category_tendencies df category_column = Some rows ->
            In r rows ->
            let scope :=
              filter (fun p => str_eq (category_column p) (DefCategoryRow.Category r)) df in
            DefCategoryRow.Disguise_Pct r = disguise_pct_spec scope
            /\ (List.length (filter (fun p => is_pass p && mofo_valid p) scope) = 0%nat ->
                DefCategoryRow.Disguise_Pct r = 0%Q)))
  /\ (DefOverall.disguise_pct (calculate_defensive_overall_tendencies sample_defense_frame)
      == 50)%Q
  /\ option_map
       (map (fun r => (DefCategoryRow.Category r,
                       Qeq_bool (DefCategoryRow.Disguise_Pct r) 50,
                       Qeq_bool (DefCategoryRow.Disguise_Pct r) 0)))
       (calculate_defensive_category_tendencies sample_defense_frame Col.pff_DEF_PACKAGE)
     = Some [("Dime", false, true); ("Nickel", true, false)].
Proof.
  split; [|split; reflexivity].
  intros df Hd.
  assert (Hover : DefOverall.disguise_pct (calculate_defensive_overall_tendencies df)
                  = disguise_pct_spec df).
  { rewrite <- (disguise_rate_scope df (derived_rows df Hd)).
    unfold calculate_defensive_overall_tendencies.
    destruct (List.length (pass_plays_of df)); reflexivity. }
  split; [exact Hover|]. split.
  - intros Hz. rewrite Hover. unfold disguise_pct_spec. now rewrite Hz.
  - intros category_column rows r Hrows Hin scope.
    assert (Hrow : DefCategoryRow.Disguise_Pct r = disguise_pct_spec scope).
    { rewrite (defensive_category_rows df category_column rows r Hrows Hin).
      cbn [defensive_category_row DefCategoryRow.Disguise_Pct DefCategoryRow.Category].
      apply disguise_rate_scope. intros p Hp. apply filter_In in Hp.
      now apply (derived_rows df Hd). }
    split; [exact Hrow|].
    intros Hz. rewrite Hrow. unfold disguise_pct_spec. now rewrite Hz.
Qed.

Lemma disguise_pct_over_mofo_valid_pass_plays_witness :
  derived sample_defense_frame
  /\ DefOverall.disguise_pct (calculate_defensive_overall_tendencies sample_defense_frame)
     = disguise_pct_spec sample_defense_frame.
Proof.
  split; [reflexivity|].
  destruct disguise_pct_over_mofo_valid_pass_plays as [Hall _].
  apply (Hall sample_defense_frame). reflexivity.
Defined.

(* ================================================================== *)
(** ** Usage percentages *)
(* ================================================================== *)

Lemma Qsum_Permutation (l l' : list Q) : Permutation l l' -> (Qsum l == Qsum l')%Q.
Proof.
  induction 1 as [|x l l' _ IH|x y l|l l' l'' _ IH1 _ IH2]; simpl.
  - reflexivity.
  - now rewrite IH.
  - ring.
  - now rewrite IH1.
Qed.

(** Percentages against one total add up like their counts. *)
Lemma Qsum_pct (counts : list nat) (total : nat) :
  (Qsum (map (fun n => pct (Z.of_nat n) total) counts)
   == pct (Z.of_nat (list_sum counts)) total)%Q.
Proof.
  induction counts as [|n t IH]; cbn [map Qsum fold_right].
  - unfold pct, Qdiv. change (inject_Z (Z.of_nat (list_sum []))) with 0%Q. ring.
  - fold (Qsum (map (fun n => pct (Z.of_nat n) total) t)).
    change (list_sum (n :: t)) with (n + list_sum t)%nat.
    rewrite IH. unfold pct, Qdiv. rewrite Nat2Z.inj_add, inject_Z_plus. ring.
Qed.

Lemma pct_whole (total : nat) : total <> 0%nat -> (pct (Z.of_nat total) total == 100)%Q.
Proof.
  intros H. unfold pct. field.
  intros C. unfold Qeq in C. simpl in C. lia.
Qed.

Lemma list_sum_zero {A : Type} (l : list A) : list_sum (map (fun _ => 0%nat) l) = 0%nat.
Proof. induction l; simpl; auto. Qed.

Lemma list_sum_add {A : Type} (f g : A -> nat) (l : list A) :
  list_sum (map (fun x => (f x + g x)%nat) l)
  = (list_sum (map f l) + list_sum (map g l))%nat.
Proof. induction l as [|x t IH]; simpl; [reflexivity | rewrite IH; lia]. Qed.

(** Among distinct keys exactly one is the key of a given row. *)
Lemma one_key_matches (keys : list string) (k : option string) (c : string) :
  NoDup keys -> In c keys -> k = Some c ->
  list_sum (map (fun c' => if str_eq k c' then 1%nat else 0%nat) keys) = 1%nat.
Proof.
  intros Hnd Hin ->. unfold str_eq.
  induction Hnd as [|c' t Hnotin Hnd IH]; [destruct Hin|].
  simpl. destruct (String.eqb_spec c c') as [<-|Hne].
  - rewrite (map_ext_in _ (fun _ => 0%nat)), list_sum_zero; [reflexivity|].
    intros d Hd. destruct (String.eqb_spec c d); [subst; contradiction | reflexivity].
  - destruct Hin as [E|Hin]; [congruence | now rewrite IH].
Qed.

(** The groups of distinct keys that cover every row partition the rows. *)
Lemma group_sizes_total (category_column : Play -> option string)
    (keys : list string) (df : DataFrame) :
  NoDup keys ->
  (forall p, In p df -> exists c, In c keys /\ category_column p = Some c) ->
  list_sum (map (fun c => List.length (filter (fun p => str_eq (category_column p) c) df))
                keys)
  = List.length df.
Proof.
  intros Hnd. induction df as [|p t IH]; intros Hcov.
  - simpl. apply list_sum_zero.
  - rewrite (map_ext _
      (fun c => ((if str_eq (category_column p) c then 1 else 0)
                 + List.length (filter (fun q => str_eq (category_column q) c) t))%nat)).
    + rewrite list_sum_add, IH by (intros q Hq; apply Hcov; now right).
      destruct (Hcov p (or_introl eq_refl)) as [c [Hc Ek]].
      now rewrite (one_key_matches keys _ c Hnd Hc Ek).
    + intros c. simpl. destruct (str_eq (category_column p) c); reflexivity.
Qed.

(** The per-category offense table of a frame in which some row has a
    category: its rows, up to the final sort. *)
Lemma category_rows (df : DataFrame) (category_column : Play -> option string)
    (p0 : Play) (c0 : string) :
  In p0 df -> category_column p0 = Some c0 ->
  exists keys rows,
    NoDup keys
    /\ (forall c, In c keys <-> exists p, In p df /\ category_column p = Some c)
    /\ calculate_category_tendencies df category_column = Some rows
    /\ Permutation rows
         (map (fun c => category_row (List.length df) c
                          (filter (fun p => str_eq (category_column p) c) df))
              keys).
Proof.
  intros Hin0 Ec0.
  destruct (groupby_keys category_column df) as (Hnd & Hkeys & Eg).
  set (keys := sort_by String.leb
                 (unique String.eqb (dropna (map category_column df)))) in *.
  assert (Hk : In c0 keys) by (apply Hkeys; now exists p0).
  unfold calculate_category_tendencies.
  destruct df as [|p t]; [destruct Hin0|]. cbn [List.length Nat.eqb].
  rewrite Eg, map_map.
  destruct keys as [|k ks] eqn:Ek; [destruct Hk|].
  cbn [map]. eexists (k :: ks), _.
  split; [exact Hnd|]. split; [exact Hkeys|]. split; [reflexivity|].
  apply (sort_by_Permutation _
           (category_row (List.length (p :: t)) k
              (filter (fun q => str_eq (category_column q) k) (p :: t))
            :: map (fun c => category_row (List.length (p :: t)) c
                               (filter (fun q => str_eq (category_column q) c) (p :: t)))
                   ks)).
Qed.

(** C9. For a non-empty record set in which no row has a null category
    key, the per-category table is produced and its [Usage_Pct] values add
    up to 100; each of them is the number of plays of that category over
    the number of plays of the whole input set, times 100. *)
Theorem usage_pct_sums_to_100 :
  forall (df : DataFrame) (category_column : Play -> option string),
    df <> [] ->
    (forall p, In p df -> category_column p <> None) ->
    exists rows,
      calculate_category_tendencies df category_column = Some rows
      /\ (Qsum (map CategoryRow.Usage_Pct rows) == 100)%Q
      /\ (forall r, In r rows ->
            CategoryRow.Plays r
            = List.length
                (filter (fun p => str_eq (category_column p) (CategoryRow.Category r)) df)
            /\ CategoryRow.Usage_Pct r
               = pct (Z.of_nat (CategoryRow.Plays r)) (List.length df)).
Proof.
  intros df category_column Hne Hnonnull.
  assert (Hsome : exists p0 c0, In p0 df /\ category_column p0 = Some c0).
  { destruct df as [|p0 t]; [contradiction|].
    destruct (category_column p0) as [c0|] eqn:E.
    - exists p0, c0. split; [now left | assumption].
    - exfalso. apply (Hnonnull p0); [now left | assumption]. }
  destruct Hsome as (p0 & c0 & Hin0 & Ec0).
  destruct (category_rows df category_column p0 c0 Hin0 Ec0)
    as (keys & rows & Hnd & Hkeys & Hrows & Hperm).
  exists rows. split; [exact Hrows|]. split.
  - rewrite (Qsum_Permutation _ _ (Permutation_map _ Hperm)).
    rewrite map_map. cbn [category_row CategoryRow.Usage_Pct].
    rewrite <- (map_map
      (fun c => List.length (filter (fun p => str_eq (category_column p) c) df))
      (fun n => pct (Z.of_nat n) (List.length df))).
    rewrite Qsum_pct, group_sizes_total.
    + apply pct_whole. destruct df; [contradiction | discriminate].
    + exact Hnd.
    + intros p Hp. destruct (category_column p) as [c|] eqn:E.
      * exists c. split; [|reflexivity]. apply Hkeys. now exists p.
      * exfalso. now apply (Hnonnull p Hp).
  - intros r Hr. apply (Permutation_in _ Hperm) in Hr.
    apply in_map_iff in Hr. destruct Hr as [c [<- _]]. split; reflexivity.
Qed.

Lemma usage_pct_sums_to_100_witness :
  exists rows,
    calculate_category_tendencies
      [play_in_week "BUF" "KC" "1"; play_in_week "BUF" "NYJ" "3";
       play_in_week "BUF" "MIA" "1"]
      Col.pff_WEEK
    = Some rows
    /\ (Qsum (map CategoryRow.Usage_Pct rows) == 100)%Q.
Proof.
  destruct (usage_pct_sums_to_100
              [play_in_week "BUF" "KC" "1"; play_in_week "BUF" "NYJ" "3";
               play_in_week "BUF" "MIA" "1"]
              Col.pff_WEEK) as (rows & Hrows & Hsum & _).
  - discriminate.
  - intros p [<-|[<-|[<-|[]]]]; discriminate.
  - exists rows. split; assumption.
Defined.

(* ================================================================== *)
(** ** More on the league ranking *)
(* ================================================================== *)

Lemma filter_length_le {A : Type} (f : A -> bool) (l : list A) :
  (List.length (filter f l) <= List.length l)%nat.
Proof.
  induction l as [|x t IH]; simpl; [lia|]. destruct (f x); simpl; lia.
Qed.

Lemma filter_length_lt {A : Type} (f : A -> bool) (l : list A) (x : A) :
  In x l -> f x = false -> (List.length (filter f l) < List.length l)%nat.
Proof.
  induction l as [|y t IH]; simpl; intros Hin Hf; [destruct Hin|].
  destruct Hin as [->|Hin].
  - rewrite Hf. pose proof (filter_length_le f t). lia.
  - specialize (IH Hin Hf). destruct (f y); simpl; lia.
Qed.

Lemma filter_none {A : Type} (f : A -> bool) (l : list A) :
  (forall x, In x l -> f x = false) -> filter f l = [].
Proof.
  induction l as [|y t IH]; simpl; intros H; [reflexivity|].
  rewrite (H y (or_introl eq_refl)). apply IH. intros x Hx. apply H. now right.
Qed.

(** In a descending list the first position of a value is the number of
    elements strictly above it. *)
Lemma first_position_above (l : list Q) (v : Q) :
  descending l -> forall p, first_position l v p -> p = teams_above l v.
Proof.
  unfold descending, teams_above.
  induction 1 as [|y t Hs IH Hall]; intros p [[x [Hn Hx]] Hfirst].
  - destruct p; discriminate Hn.
  - cbn [filter]. destruct (Qeq_bool y v) eqn:E.
    + apply Qeq_bool_iff in E.
      destruct p as [|p'];
        [|exfalso; apply (Hfirst 0%nat y); [lia | reflexivity | assumption]].
      assert (Hy : Qle_bool y v = true) by (apply Qle_bool_iff; rewrite E; apply Qle_refl).
      rewrite Hy. cbn [negb].
      assert (Hnone : filter (fun x0 => negb (Qle_bool x0 v)) t = []).
      { apply filter_none. intros z Hz. apply negb_false_iff, Qle_bool_iff.
        rewrite <- E. rewrite Forall_forall in Hall. now apply Hall. }
      now rewrite Hnone.
    + apply Qeq_bool_neq in E.
      destruct p as [|p'].
      * simpl in Hn. inversion Hn; subst. contradiction.
      * assert (Hyv : Qle_bool y v = false).
        { destruct (Qle_bool y v) eqn:L; [|reflexivity]. exfalso.
          apply Qle_bool_iff in L. apply E. apply Qle_antisym; [assumption|].
          rewrite <- Hx. rewrite Forall_forall in Hall. apply Hall.
          now apply nth_error_In with p'. }
        rewrite Hyv. cbn [negb List.length]. f_equal. apply IH.
        split; [now exists x|].
        intros j z Hj Hz. apply (Hfirst (S j) z); [lia | exact Hz].
Qed.

(** The rank string of a value that some team has. *)
Lemma rank_of_found (table : list Q) (v : Q) :
  (exists x, In x table /\ (x == v)%Q) ->
  rank_of table v
  = (if (1 <? teams_at table v)%nat then "t-" else "")
      ++ Py.str_of_nat (teams_above table v + 1).
Proof.
  intros Hex.
  assert (Hex' : exists x, In x (sort_values_desc table) /\ (x == v)%Q).
  { destruct Hex as [x [Hin Hx]]. exists x. split; [|assumption].
    apply Permutation_in with table; [|assumption].
    symmetry. apply sort_values_desc_Permutation. }
  destruct (first_position_exists _ _ Hex') as [p Hp].
  unfold rank_of. destruct (np_where_first _ _ p 0%nat Hp) as [rest Hr]. rewrite Hr.
  rewrite np_sum_eq_mask.
  rewrite (first_position_above _ _ (sort_values_desc_descending table) p Hp).
  unfold teams_at, teams_above.
  rewrite !(filter_length_Permutation _ _ _ (sort_values_desc_Permutation table)).
  simpl. destruct (1 <? _)%nat; reflexivity.
Qed.

Lemma str_of_nat_not_sentinel (n : nat) : Py.str_of_nat n <> "-".
Proof.
  unfold Py.str_of_nat, Py.str_of_Z. destruct (Z.of_nat n) as [|q|q] eqn:E; try lia.
  - discriminate.
  - cbn [Z.to_int NilZero.string_of_int]. destruct (Pos.to_uint q); discriminate.
Qed.

Lemma some_team_at_dec (table : list Q) (v : Q) :
  (exists x, In x table /\ (x == v)%Q) \/ (forall x, In x table -> ~ (x == v)%Q).
Proof.
  induction table as [|y t [IH|IH]].
  - right. intros x [].
  - left. destruct IH as [x [Hin Hx]]. exists x. split; [now right | assumption].
  - destruct (Qeq_bool y v) eqn:E.
    + left. exists y. split; [now left | now apply Qeq_bool_iff].
    + right. intros x [<-|Hin]; [now apply Qeq_bool_neq | now apply IH].
Qed.

Lemma rank_of_absent (table : list Q) (v : Q) :
  (forall x, In x table -> ~ (x == v)%Q) -> rank_of table v = "-".
Proof.
  intros Hno. unfold rank_of. rewrite np_where_none; [reflexivity|].
  intros x Hx. apply Hno.
  now apply (Permutation_in _ (sort_values_desc_Permutation table)).
Qed.

(** The rank is one more than the number of teams strictly above: for a
    value that some team of the table has, the rank string is that number
    in decimal, after "t-" when more than one team has the value, and it
    does not exceed the number of teams. *)
Theorem rank_of_counts_teams_above :
  forall (table : list Q) (value : Q),
    (exists x, In x table /\ (x == value)%Q) ->
    rank_of table value
    = (if (1 <? teams_at table value)%nat then "t-" else "")
        ++ Py.str_of_nat (teams_above table value + 1)
    /\ (teams_above table value + 1 <= List.length table)%nat.
Proof.
  intros table value Hex. split; [now apply rank_of_found|].
  destruct Hex as [x [Hin Hx]]. unfold teams_above.
  assert (Hf : negb (Qle_bool x value) = false).
  { apply negb_false_iff, Qle_bool_iff. rewrite Hx. apply Qle_refl. }
  pose proof (filter_length_lt (fun y => negb (Qle_bool y value)) table x Hin Hf). lia.
Qed.

Lemma rank_of_counts_teams_above_witness :
  rank_of [40; 70; 55; 70]%Q 55%Q = "3".
Proof.
  apply (rank_of_counts_teams_above [40; 70; 55; 70]%Q 55%Q).
  exists 55%Q. split; [simpl; tauto | reflexivity].
Defined.

(** The sentinel "-" is returned exactly when no team of the table has
    the probe value. *)
Theorem rank_of_sentinel_iff :
  forall (table : list Q) (value : Q),
    rank_of table value = "-" <-> (forall x, In x table -> ~ (x == value)%Q).
Proof.
  intros table value. split.
  - intros Hr. destruct (some_team_at_dec table value) as [Hex|Hno]; [|exact Hno].
    exfalso. rewrite (rank_of_found _ _ Hex) in Hr.
    destruct (1 <? teams_at table value)%nat; [discriminate Hr|].
    now apply (str_of_nat_not_sentinel (teams_above table value + 1)).
  - apply rank_of_absent.
Qed.

(** The rank does not depend on the order of the teams in the table. *)
Theorem rank_of_Permutation :
  forall (table table' : list Q) (value : Q),
    Permutation table table' -> rank_of table value = rank_of table' value.
Proof.
  intros table table' value Hp.
  destruct (some_team_at_dec table value) as [Hex|Hno].
  - assert (Hex' : exists x, In x table' /\ (x == value)%Q).
    { destruct Hex as [x [Hin Hx]]. exists x. split; [|assumption].
      now apply Permutation_in with table. }
    rewrite (rank_of_found _ _ Hex), (rank_of_found _ _ Hex').
    unfold teams_at, teams_above.
    now rewrite !(filter_length_Permutation _ _ _ Hp).
  - rewrite (rank_of_absent table value Hno).
    symmetry. apply rank_of_absent. intros x Hx. apply Hno.
    apply Permutation_in with table'; [now symmetry | assumption].
Qed.

Lemma rank_of_Permutation_witness :
  rank_of [30; 50; 50]%Q 50%Q = rank_of [50; 30; 50]%Q 50%Q.
Proof. apply rank_of_Permutation. apply perm_swap. Defined.

(* ================================================================== *)
(** ** Filters compose *)
(* ================================================================== *)

(** Filtering with one specification and then with another keeps the rows
    that meet both; so the order of two filterings does not matter and a
    second filtering with the same specification changes nothing. *)
Theorem filter_data_compose :
  forall (df : DataFrame) (f g : Filters),
    filter_data (filter_data df f) g
    = filter (fun p => criteria_metb f p && criteria_metb g p) df
    /\ filter_data (filter_data df f) g = filter_data (filter_data df g) f
    /\ filter_data (filter_data df f) f = filter_data df f.
Proof.
  intros df f g. rewrite !filter_data_is_filter, !filter_fuse.
  split; [reflexivity|]. split; apply filter_ext; intros p.
  - apply andb_comm.
  - now destruct (criteria_metb f p).
Qed.

(* ================================================================== *)
(** ** Cleaning *)
(* ================================================================== *)

Lemma clean_data_runpass (df : DataFrame) (p : Play) :
  In p (clean_data df) <->
  In p df /\ (Col.pff_RUNPASS p = Some "P" \/ Col.pff_RUNPASS p = Some "R").
Proof.
  unfold clean_data. rewrite filter_In, str_isin_iff. split.
  - intros [Hin [v [E Hv]]]. split; [assumption|].
    simpl in Hv. rewrite E. destruct Hv as [<-|[<-|[]]]; auto.
  - intros [Hin [E|E]]; (split; [assumption|]); rewrite E;
      [exists "P" | exists "R"]; simpl; auto.
Qed.

Lemma filter_map_commute {A : Type} (f : A -> A) (b : A -> bool) (l : list A) :
  (forall x, b (f x) = b x) -> filter b (map f l) = map f (filter b l).
Proof.
  intros H. induction l as [|x t IH]; simpl; [reflexivity|].
  rewrite H. destruct (b x); simpl; now rewrite IH.
Qed.

(** Cleaning and deriving can be done in either order, cleaning twice is
    cleaning once, and a cleaned frame holds exactly the rows of the input
    whose run/pass code is P or R, in their original order. *)
Theorem clean_data_commutes_with_derivation :
  forall df : DataFrame,
    clean_data (add_calculated_columns df) = add_calculated_columns (clean_data df)
    /\ clean_data (clean_data df) = clean_data df
    /\ Subseq (clean_data df) df
    /\ (forall p, In p (clean_data df) <->
                  In p df /\ (Col.pff_RUNPASS p = Some "P" \/ Col.pff_RUNPASS p = Some "R")).
Proof.
  intros df. split; [|split; [|split]].
  - unfold clean_data, add_calculated_columns, add_defensive_columns.
    rewrite !map_map. apply filter_map_commute. intros p. reflexivity.
  - unfold clean_data. rewrite filter_fuse. apply filter_ext. intros p.
    now destruct (str_isin _ _).
  - apply filter_Subseq.
  - apply clean_data_runpass.
Qed.

Lemma run_or_pass_count (l : DataFrame) :
  (forall p, In p l ->
     (Col.pff_RUNPASS p = Some "P" \/ Col.pff_RUNPASS p = Some "R")
     /\ Col.is_run p = Z.b2z (str_eq (Col.pff_RUNPASS p) "R")) ->
  col_sum Col.is_run l + Z.of_nat (List.length (pass_plays_of l))
  = Z.of_nat (List.length l).
Proof.
  unfold col_sum, pass_plays_of.
  induction l as [|x t IH]; intros H; [reflexivity|].
  specialize (IH (fun p Hp => H p (or_intror Hp))).
  destruct (H x (or_introl eq_refl)) as [Hrp Hrun].
  cbn [map fold_right filter]. rewrite Hrun.
  destruct Hrp as [E|E]; rewrite E; cbn [str_eq String.eqb Ascii.eqb Bool.eqb Z.b2z List.length];
    rewrite ?Nat2Z.inj_succ; lia.
Qed.

(** On the frame that the dashboard hands to the aggregators (loaded,
    cleaned, derived, then filtered) every play is a run or a pass: the
    sum of [is_run] plus the number of pass plays is the number of rows. *)
Theorem processed_plays_are_run_or_pass :
  forall (loaded : DataFrame) (filters : Filters),
    let df := filter_data (load_and_process_data loaded) filters in
    col_sum Col.is_run df + Z.of_nat (List.length (pass_plays_of df))
    = Z.of_nat (List.length df).
Proof.
  intros loaded filters df. apply run_or_pass_count. intros p Hp.
  unfold df in Hp. rewrite filter_data_is_filter in Hp. apply filter_In in Hp.
  destruct Hp as [Hp _]. unfold load_and_process_data in Hp.
  apply In_add_calculated_columns in Hp. destruct Hp as [q [Hq ->]].
  apply clean_data_runpass in Hq. destruct Hq as [_ Hq].
  split; [exact Hq | reflexivity].
Qed.

(* ================================================================== *)
(** ** The league table and the team scorecard *)
(* ================================================================== *)

Lemma rank_of_sentinel_absent (table : list Q) (v : Q) :
  rank_of table v = "-" -> forall x, In x table -> ~ (x == v)%Q.
Proof.
  intros Hr. destruct (some_team_at_dec table v) as [Hex|Hno]; [|exact Hno].
  exfalso. rewrite (rank_of_found _ _ Hex) in Hr.
  destruct (1 <? teams_at table v)%nat; [discriminate Hr|].
  now apply (str_of_nat_not_sentinel (teams_above table v + 1)).
Qed.

Lemma cell_eqb_eq (x y : option string) : cell_eqb x y = true <-> x = y.
Proof.
  destruct x as [a|], y as [b|]; simpl; try (split; congruence).
  rewrite String.eqb_eq. split; congruence.
Qed.

Lemma length_zero_eqb {A : Type} (l : list A) :
  (List.length l =? 0)%nat = false <-> l <> [].
Proof. destruct l; simpl; split; congruence. Qed.

(** The rows of the offense league table: one for each offense team that
    has plays left after the situational steps, computed on those plays. *)
Lemma all_teams_rows {C : Type} (df : DataFrame) (f : Filters) (c : C)
    (row : TeamRow.t) :
  In row (calculate_all_teams_tendencies df f c) <->
  exists t,
    let team_df :=
      filter (fun p => str_eq (Col.pff_OFFTEAM p) t) (filter (situation_ok f) df) in
    team_df <> []
    /\ row = {| TeamRow.Team := Some t;
                TeamRow.Total_Plays := List.length team_df;
                TeamRow.Run_Pct := pct (col_sum Col.is_run team_df) (List.length team_df);
                TeamRow.PA_Pct := pct (col_sum Col.is_play_action team_df) (List.length team_df);
                TeamRow.DB_Pct :=
                  pct (col_sum Col.is_standard_dropback team_df) (List.length team_df);
                TeamRow.Motion_Pct := pct (col_sum Col.has_motion team_df) (List.length team_df) |}.
Proof.
  unfold calculate_all_teams_tendencies. cbv zeta. rewrite situational_steps.
  rewrite in_flat_map. split.
  - intros [[t|] [Ht Hrow]]; cbn [team_is] in Hrow.
    + destruct (List.length _ =? 0)%nat eqn:E; [destruct Hrow|].
      destruct Hrow as [<-|[]]. exists t. split; [now apply length_zero_eqb | reflexivity].
    + rewrite filter_none in Hrow by reflexivity. destruct Hrow.
  - intros [t [Hne ->]]. exists (Some t). cbn [team_is]. split.
    + apply (In_unique _ cell_eqb_eq). apply in_map_iff.
      destruct (filter (fun p => str_eq (Col.pff_OFFTEAM p) t) (filter (situation_ok f) df))
        as [|p rest] eqn:E; [contradiction|].
      assert (Hp : In p (p :: rest)) by now left.
      rewrite <- E in Hp. apply filter_In in Hp. destruct Hp as [Hp Ht].
      apply str_eq_iff in Ht. exists p. split; [exact Ht | exact Hp].
    + apply length_zero_eqb in Hne. rewrite Hne. now left.
Qed.

Lemma filter_data_team_then_situation (df : DataFrame) (f : Filters) (t : string) :
  team f = Some t -> t <> "" ->
  filter_data df f
  = filter (fun p => str_eq (Col.pff_OFFTEAM p) t) (filter (situation_ok f) df).
Proof.
  intros Et Hne. rewrite filter_data_is_filter, filter_fuse. apply filter_ext.
  intros p. unfold criteria_metb, team_ok. rewrite Et.
  destruct (String.eqb_spec t ""); [contradiction | apply andb_comm].
Qed.

(** The league table agrees with the team scorecard.  When the filter
    specification names a team and that team has plays left, the league
    table computed from the same specification has exactly one row for the
    team, and its figures are those of [calculate_overall_tendencies] on
    the team's filtered plays; so each of the team's percentages is found
    in the table and gets a numbered rank. *)
Theorem league_row_is_team_scorecard :
  forall (C : Type) (c : C) (df : DataFrame) (filters : Filters) (t : string),
    team filters = Some t -> t <> "" -> filter_data df filters <> [] ->
    let overall := calculate_overall_tendencies (filter_data df filters) in
    let table := calculate_all_teams_tendencies df filters c in
    exists row,
      In row table
      /\ TeamRow.Team row = Some t
      /\ TeamRow.Total_Plays row = Overall.total_plays overall
      /\ TeamRow.Run_Pct row = Overall.run_pct overall
      /\ TeamRow.PA_Pct row = Overall.pa_pct overall
      /\ TeamRow.DB_Pct row = Overall.db_pct overall
      /\ TeamRow.Motion_Pct row = Overall.motion_pct overall
      /\ (forall row', In row' table -> TeamRow.Team row' = Some t -> row' = row)
      /\ rank_of (map TeamRow.Run_Pct table) (Overall.run_pct overall) <> "-"
      /\ rank_of (map TeamRow.PA_Pct table) (Overall.pa_pct overall) <> "-"
      /\ rank_of (map TeamRow.DB_Pct table) (Overall.db_pct overall) <> "-"
      /\ rank_of (map TeamRow.Motion_Pct table) (Overall.motion_pct overall) <> "-".
Proof.
  intros C c df filters t Et Hne Hplays overall table.
  pose proof (filter_data_team_then_situation df filters t Et Hne) as Efd.
  set (team_df := filter (fun p => str_eq (Col.pff_OFFTEAM p) t)
                         (filter (situation_ok filters) df)) in *.
  assert (Hover : overall
                  = {| Overall.total_plays := List.length team_df;
                       Overall.run_pct := pct (col_sum Col.is_run team_df) (List.length team_df);
                       Overall.pa_pct :=
                         pct (col_sum Col.is_play_action team_df) (List.length team_df);
                       Overall.db_pct :=
                         pct (col_sum Col.is_standard_dropback team_df) (List.length team_df);
                       Overall.motion_pct :=
                         pct (col_sum Col.has_motion team_df) (List.length team_df);
                       Overall.top_run_concepts := run_concepts team_df |}).
  { unfold overall, calculate_overall_tendencies. rewrite Efd in *.
    apply length_zero_eqb in Hplays. now rewrite Hplays. }
  eexists. split; [apply all_teams_rows; exists t; split; [|reflexivity]|].
  { fold team_df. now rewrite <- Efd. }
  fold team_df. rewrite Hover. cbn [TeamRow.Team TeamRow.Total_Plays TeamRow.Run_Pct
    TeamRow.PA_Pct TeamRow.DB_Pct TeamRow.Motion_Pct Overall.total_plays Overall.run_pct
    Overall.pa_pct Overall.db_pct Overall.motion_pct].
  assert (Hin : In {| TeamRow.Team := Some t;
                      TeamRow.Total_Plays := List.length team_df;
                      TeamRow.Run_Pct := pct (col_sum Col.is_run team_df) (List.length team_df);
                      TeamRow.PA_Pct :=
                        pct (col_sum Col.is_play_action team_df) (List.length team_df);
                      TeamRow.DB_Pct :=
                        pct (col_sum Col.is_standard_dropback team_df) (List.length team_df);
                      TeamRow.Motion_Pct :=
                        pct (col_sum Col.has_motion team_df) (List.length team_df) |} table).
  { apply all_teams_rows. exists t. split; [|reflexivity].
    fold team_df. now rewrite <- Efd. }
  repeat (split; [reflexivity|]).
  split.
  - intros row' Hrow' Hteam. apply all_teams_rows in Hrow'.
    destruct Hrow' as [t' [_ ->]]. cbn in Hteam. injection Hteam as ->. reflexivity.
  - split; [|split; [|split]]; intros Hr.
    + apply (rank_of_sentinel_absent _ _ Hr _ (in_map TeamRow.Run_Pct _ _ Hin)). reflexivity.
    + apply (rank_of_sentinel_absent _ _ Hr _ (in_map TeamRow.PA_Pct _ _ Hin)). reflexivity.
    + apply (rank_of_sentinel_absent _ _ Hr _ (in_map TeamRow.DB_Pct _ _ Hin)). reflexivity.
    + apply (rank_of_sentinel_absent _ _ Hr _ (in_map TeamRow.Motion_Pct _ _ Hin)). reflexivity.
Qed.

Lemma league_row_is_team_scorecard_witness :
  exists row,
    In row (calculate_all_teams_tendencies
              [play_in_week "BUF" "KC" "1"; play_in_week "KC" "BUF" "1"]
              (only_team "KC") tt)
    /\ TeamRow.Team row = Some "KC"
    /\ TeamRow.Total_Plays row = 1%nat.
Proof.
  destruct (league_row_is_team_scorecard unit tt
              [play_in_week "BUF" "KC" "1"; play_in_week "KC" "BUF" "1"]
              (only_team "KC") "KC")
    as (row & Hin & Ht & Hn & _).
  - reflexivity.
  - discriminate.
  - vm_compute. discriminate.
  - exists row. split; [exact Hin|]. split; [exact Ht | exact Hn].
Defined.

(** The rows of the defense league table: one for each defense team that
    has pass plays left after the situational steps. *)
Lemma all_teams_defensive_rows (df : DataFrame) (f : Filters) (row : DefTeamRow.t) :
  In row (calculate_all_teams_defensive_tendencies df f) <->
  exists t,
    let team_df :=
      filter (fun p => str_eq (Col.pff_DEFTEAM p) t) (filter (situation_ok f) df) in
    let pass_plays := pass_plays_of team_df in
    pass_plays <> []
    /\ row = {| DefTeamRow.Team := Some t;
                DefTeamRow.Total_Plays := List.length team_df;
                DefTeamRow.Blitz_Pct :=
                  pct (col_sum Col.is_blitz pass_plays) (List.length pass_plays);
                DefTeamRow.Man_Pct :=
                  pct (col_sum Col.is_man_coverage pass_plays) (List.length pass_plays);
                DefTeamRow.MOFO_Pct :=
                  pct (col_sum Col.is_mofo pass_plays) (List.length pass_plays);
                DefTeamRow.Disguise_Pct := disguise_rate pass_plays |}.
Proof.
  unfold calculate_all_teams_defensive_tendencies. cbv zeta. rewrite situational_steps.
  rewrite in_flat_map. split.
  - intros [[t|] [Ht Hrow]]; cbn [team_is] in Hrow.
    + destruct (List.length _ =? 0)%nat eqn:E; [destruct Hrow|].
      destruct (List.length (pass_plays_of _) =? 0)%nat eqn:E2; [destruct Hrow|].
      destruct Hrow as [<-|[]]. exists t. split; [now apply length_zero_eqb | reflexivity].
    + rewrite filter_none in Hrow by reflexivity. destruct Hrow.
  - intros [t [Hne ->]]. exists (Some t). cbn [team_is].
    destruct (filter (fun p => str_eq (Col.pff_DEFTEAM p) t) (filter (situation_ok f) df))
      as [|p rest] eqn:E; [now contradiction Hne|].
    split.
    + apply (In_unique _ cell_eqb_eq). apply in_map_iff.
      assert (Hp : In p (p :: rest)) by now left.
      rewrite <- E in Hp. apply filter_In in Hp. destruct Hp as [Hp Ht].
      apply str_eq_iff in Ht. exists p. split; [exact Ht | exact Hp].
    + cbn [List.length Nat.eqb]. apply length_zero_eqb in Hne. rewrite Hne. now left.
Qed.

(** The defense league table agrees with the defense scorecard.  When the
    selected team has pass plays left on defense, the defense league table
    has exactly one row for it, with the figures that
    [calculate_defensive_overall_tendencies] computes on the plays that the
    defense tab selects; each of these percentages gets a numbered rank. *)
Theorem defense_league_row_is_team_scorecard :
  forall (df : DataFrame) (filters : Filters) (t : string),
    pass_plays_of (defense_tab_filter df filters t) <> [] ->
    let overall := calculate_defensive_overall_tendencies (defense_tab_filter df filters t) in
    let table := calculate_all_teams_defensive_tendencies df filters in
    exists row,
      In row table
      /\ DefTeamRow.Team row = Some t
      /\ DefTeamRow.Total_Plays row = DefOverall.total_plays overall
      /\ DefTeamRow.Blitz_Pct row = DefOverall.blitz_pct overall
      /\ DefTeamRow.Man_Pct row = DefOverall.man_pct overall
      /\ DefTeamRow.MOFO_Pct row = DefOverall.mofo_pct overall
      /\ DefTeamRow.Disguise_Pct row = DefOverall.disguise_pct overall
      /\ (forall row', In row' table -> DefTeamRow.Team row' = Some t -> row' = row)
      /\ rank_of (map DefTeamRow.Blitz_Pct table) (DefOverall.blitz_pct overall) <> "-"
      /\ rank_of (map DefTeamRow.Man_Pct table) (DefOverall.man_pct overall) <> "-"
      /\ rank_of (map DefTeamRow.MOFO_Pct table) (DefOverall.mofo_pct overall) <> "-"
      /\ rank_of (map DefTeamRow.Disguise_Pct table) (DefOverall.disguise_pct overall) <> "-".
Proof.
  intros df filters t Hpass overall table.
  assert (Efd : defense_tab_filter df filters t
                = filter (fun p => str_eq (Col.pff_DEFTEAM p) t)
                         (filter (situation_ok filters) df)).
  { rewrite defense_tab_filter_is_filter, filter_fuse. apply filter_ext.
    intros p. apply andb_comm. }
  set (team_df := filter (fun p => str_eq (Col.pff_DEFTEAM p) t)
                         (filter (situation_ok filters) df)) in *.
  rewrite Efd in Hpass.
  assert (Hin : In {| DefTeamRow.Team := Some t;
                      DefTeamRow.Total_Plays := List.length team_df;
                      DefTeamRow.Blitz_Pct :=
                        pct (col_sum Col.is_blitz (pass_plays_of team_df))
                            (List.length (pass_plays_of team_df));
                      DefTeamRow.Man_Pct :=
                        pct (col_sum Col.is_man_coverage (pass_plays_of team_df))
                            (List.length (pass_plays_of team_df));
                      DefTeamRow.MOFO_Pct :=
                        pct (col_sum Col.is_mofo (pass_plays_of team_df))
                            (List.length (pass_plays_of team_df));
                      DefTeamRow.Disguise_Pct := disguise_rate (pass_plays_of team_df) |}
                   table).
  { apply all_teams_defensive_rows. exists t. split; [exact Hpass | reflexivity]. }
  assert (Hover : overall
                  = {| DefOverall.total_plays := List.length team_df;
                       DefOverall.blitz_pct :=
                         pct (col_sum Col.is_blitz (pass_plays_of team_df))
                             (List.length (pass_plays_of team_df));
                       DefOverall.man_pct :=
                         pct (col_sum Col.is_man_coverage (pass_plays_of team_df))
                             (List.length (pass_plays_of team_df));
                       DefOverall.mofo_pct :=
                         pct (col_sum Col.is_mofo (pass_plays_of team_df))
                             (List.length (pass_plays_of team_df));
                       DefOverall.disguise_pct := disguise_rate (pass_plays_of team_df);
                       DefOverall.top_coverages :=
                         top3 (map Col.pff_PASS_COVERAGE_NORMALIZED (pass_plays_of team_df))
                              (List.length (pass_plays_of team_df)) |}).
  { unfold overall, calculate_defensive_overall_tendencies. rewrite Efd.
    fold team_df. destruct (pass_plays_of team_df); [contradiction | reflexivity]. }
  eexists. split; [exact Hin|]. rewrite Hover.
  cbn [DefTeamRow.Team DefTeamRow.Total_Plays DefTeamRow.Blitz_Pct DefTeamRow.Man_Pct
       DefTeamRow.MOFO_Pct DefTeamRow.Disguise_Pct DefOverall.total_plays
       DefOverall.blitz_pct DefOverall.man_pct DefOverall.mofo_pct DefOverall.disguise_pct].
  repeat (split; [reflexivity|]).
  split.
  - intros row' Hrow' Hteam. apply all_teams_defensive_rows in Hrow'.
    destruct Hrow' as [t' [_ ->]]. cbn in Hteam. injection Hteam as ->. reflexivity.
  - split; [|split; [|split]]; intros Hr.
    + apply (rank_of_sentinel_absent _ _ Hr _ (in_map DefTeamRow.Blitz_Pct _ _ Hin)). reflexivity.
    + apply (rank_of_sentinel_absent _ _ Hr _ (in_map DefTeamRow.Man_Pct _ _ Hin)). reflexivity.
    + apply (rank_of_sentinel_absent _ _ Hr _ (in_map DefTeamRow.MOFO_Pct _ _ Hin)). reflexivity.
    + apply (rank_of_sentinel_absent _ _ Hr _ (in_map DefTeamRow.Disguise_Pct _ _ Hin)). reflexivity.
Qed.

Lemma defense_league_row_is_team_scorecard_witness :
  exists row,
    In row (calculate_all_teams_defensive_tendencies
              [play_in_week "BUF" "KC" "1"; play_in_week "KC" "BUF" "1"] no_filters)
    /\ DefTeamRow.Team row = Some "KC"
    /\ DefTeamRow.Total_Plays row = 1%nat.
Proof.
  destruct (defense_league_row_is_team_scorecard
              [play_in_week "BUF" "KC" "1"; play_in_week "KC" "BUF" "1"] no_filters "KC")
    as (row & Hin & Ht & Hn & _).
  - vm_compute. discriminate.
  - exists row. split; [exact Hin|]. split; [exact Ht | exact Hn].
Defined.

(* ================================================================== *)
(** ** Decimal texts: [int] after [str] *)
(* ================================================================== *)

Lemma uint_text_digits (d : Decimal.uint) :
  all_digits (NilEmpty.string_of_uint d) = true.
Proof. induction d; simpl; auto. Qed.

Lemma digits_lstrip (s : string) : all_digits s = true -> Py.lstrip s = s.
Proof.
  destruct s as [|c r]; [reflexivity|]. cbn [all_digits Py.lstrip].
  intros H. apply andb_true_iff in H. destruct H as [Hc _].
  destruct (digit_not_special c Hc) as (Hs & _). now rewrite Hs.
Qed.

Lemma digits_rstrip (s : string) : all_digits s = true -> Py.rstrip s = s.
Proof.
  induction s as [|c r IH]; [reflexivity|]. cbn [all_digits Py.rstrip].
  intros H. apply andb_true_iff in H. destruct H as [Hc Hr].
  rewrite (IH Hr). destruct (digit_not_special c Hc) as (Hs & _).
  destruct r; [now rewrite Hs | reflexivity].
Qed.

Lemma digits_contains (sep : ascii) (s : string) :
  Py.is_digit sep = false -> all_digits s = true -> Py.contains sep s = false.
Proof.
  intros Hsep. induction s as [|c r IH]; [reflexivity|]. cbn [all_digits Py.contains].
  intros H. apply andb_true_iff in H. destruct H as [Hc Hr].
  rewrite (IH Hr), orb_false_r.
  destruct (Ascii.eqb_spec c sep) as [->|]; [congruence | reflexivity].
Qed.

Lemma split_prefix (sep : ascii) (s1 s2 : string) :
  Py.contains sep s1 = false ->
  Py.split sep (s1 ++ String sep s2) = s1 :: Py.split sep s2.
Proof.
  induction s1 as [|c r IH]; cbn [Py.contains append Py.split]; intros H.
  - now rewrite Ascii.eqb_refl.
  - apply orb_false_iff in H. destruct H as [Hc Hr]. now rewrite Hc, (IH Hr).
Qed.

Lemma split_whole (sep : ascii) (s : string) :
  Py.contains sep s = false -> Py.split sep s = [s].
Proof.
  induction s as [|c r IH]; cbn [Py.contains Py.split]; intros H; [reflexivity|].
  apply orb_false_iff in H. destruct H as [Hc Hr]. now rewrite Hc, (IH Hr).
Qed.

Lemma contains_sep (sep : ascii) (s1 s2 : string) :
  Py.contains sep (s1 ++ String sep s2) = true.
Proof.
  induction s1 as [|c r IH]; cbn [append Py.contains].
  - now rewrite Ascii.eqb_refl.
  - rewrite IH. apply orb_true_r.
Qed.

Lemma int_digits_step (acc : Z) (seen : bool) (c : ascii) (r : string) :
  Py.is_digit c = true ->
  Py.int_digits acc seen (String c r)
  = Py.int_digits (10 * acc + Py.digit_value c) true r.
Proof. intros H. cbn [Py.int_digits]. now rewrite H. Qed.

(** Reading the digits of a decimal numeral, with a positive number read
    so far. *)
Lemma int_digits_uint_acc (d : Decimal.uint) :
  forall acc : positive,
    Py.int_digits (Z.pos acc) true (NilEmpty.string_of_uint d)
    = Some (Z.pos (Pos.of_uint_acc d acc)).
Proof.
  induction d; intros acc; cbn [NilEmpty.string_of_uint Pos.of_uint_acc];
    [reflexivity | ..];
    rewrite int_digits_step by reflexivity;
    rewrite <- IHd;
    match goal with
    | |- Py.int_digits ?a true ?s = Py.int_digits ?b true ?s =>
        replace a with b; [reflexivity|]
    end;
    match goal with
    | |- context [Py.digit_value ?c] =>
        let v := eval vm_compute in (Py.digit_value c) in
        change (Py.digit_value c) with v
    end; lia.
Qed.

Lemma int_digits_uint_zero (d : Decimal.uint) :
  Py.int_digits 0 true (NilEmpty.string_of_uint d) = Some (Z.of_N (Pos.of_uint d)).
Proof.
  induction d; cbn [NilEmpty.string_of_uint Pos.of_uint];
    [reflexivity | ..]; rewrite int_digits_step by reflexivity;
    [exact IHd | ..]; apply int_digits_uint_acc.
Qed.

Lemma int_digits_uint_start (d : Decimal.uint) :
  d <> Decimal.Nil ->
  Py.int_digits 0 false (NilEmpty.string_of_uint d) = Some (Z.of_N (Pos.of_uint d)).
Proof.
  destruct d; intros H; [contradiction | ..];
    cbn [NilEmpty.string_of_uint Pos.of_uint];
    rewrite int_digits_step by reflexivity;
    [apply int_digits_uint_zero | ..]; apply int_digits_uint_acc.
Qed.

Lemma uint_text_head (d : Decimal.uint) :
  d <> Decimal.Nil ->
  exists c r, NilEmpty.string_of_uint d = String c r /\ Py.is_digit c = true.
Proof.
  destruct d; intros H; [contradiction | ..]; eexists _, _; split; reflexivity.
Qed.

Lemma str_of_Z_pos (p : positive) :
  Py.str_of_Z (Z.pos p) = NilEmpty.string_of_uint (Pos.to_uint p).
Proof.
  unfold Py.str_of_Z. cbn [Z.to_int NilZero.string_of_int].
  pose proof (DecimalPos.Unsigned.to_uint_nonnil p) as H.
  destruct (Pos.to_uint p); [contradiction | ..]; reflexivity.
Qed.

Lemma str_of_Z_neg (p : positive) :
  Py.str_of_Z (Z.neg p) = String "-" (NilEmpty.string_of_uint (Pos.to_uint p)).
Proof.
  unfold Py.str_of_Z. cbn [Z.to_int NilZero.string_of_int].
  pose proof (DecimalPos.Unsigned.to_uint_nonnil p) as H.
  destruct (Pos.to_uint p); [contradiction | ..]; reflexivity.
Qed.

(** The text of an integer has no surrounding white space. *)
Lemma strip_str_of_Z (n : Z) : Py.strip (Py.str_of_Z n) = Py.str_of_Z n.
Proof.
  destruct n as [|p|p].
  - reflexivity.
  - rewrite str_of_Z_pos. unfold Py.strip.
    now rewrite digits_lstrip, digits_rstrip by apply uint_text_digits.
  - rewrite str_of_Z_neg. unfold Py.strip. cbn [Py.lstrip].
    change (Py.is_space "-") with false. cbn [Py.rstrip].
    rewrite digits_rstrip by apply uint_text_digits.
    destruct (uint_text_head _ (DecimalPos.Unsigned.to_uint_nonnil p)) as (c & r & -> & _).
    reflexivity.
Qed.

(** [int(str(n))] is [n]. *)
Lemma py_int_str_of_Z (n : Z) : Py.py_int (Py.str_of_Z n) = Some n.
Proof.
  destruct n as [|p|p].
  - reflexivity.
  - destruct (uint_text_head _ (DecimalPos.Unsigned.to_uint_nonnil p)) as (c & r & E & Hc).
    rewrite (py_int_unsigned _ c r Hc) by (rewrite strip_str_of_Z, str_of_Z_pos; exact E).
    rewrite <- E, int_digits_uint_start by apply DecimalPos.Unsigned.to_uint_nonnil.
    now rewrite DecimalPos.Unsigned.of_to.
  - unfold Py.py_int. rewrite strip_str_of_Z, str_of_Z_neg.
    rewrite int_digits_uint_start by apply DecimalPos.Unsigned.to_uint_nonnil.
    now rewrite DecimalPos.Unsigned.of_to.
Qed.

(** The text of an integer holds digits and at most a leading minus. *)
Lemma str_of_Z_contains (sep : ascii) (n : Z) :
  Py.is_digit sep = false -> sep <> "-"%char -> Py.contains sep (Py.str_of_Z n) = false.
Proof.
  intros Hd Hm. destruct n as [|p|p].
  - change (Py.str_of_Z 0) with "0". apply digits_contains; [assumption | reflexivity].
  - rewrite str_of_Z_pos. apply digits_contains; [assumption | apply uint_text_digits].
  - rewrite str_of_Z_neg. cbn [Py.contains].
    rewrite digits_contains by (assumption || apply uint_text_digits).
    destruct (Ascii.eqb_spec "-"%char sep) as [<-|]; [contradiction | reflexivity].
Qed.

(* ================================================================== *)
(** ** Formation groups and rusher counts *)
(* ================================================================== *)

Lemma normalize_formation_group_text (a b : Z) :
  normalize_formation_group (Some (Py.str_of_Z a ++ "x" ++ Py.str_of_Z b))
  = Some (Py.str_of_Z (Z.max a b) ++ "x" ++ Py.str_of_Z (Z.min a b)).
Proof.
  unfold normalize_formation_group.
  change (Py.str_of_Z a ++ "x" ++ Py.str_of_Z b)
    with (Py.str_of_Z a ++ String "x" (Py.str_of_Z b)).
  rewrite contains_sep.
  rewrite split_prefix by (apply str_of_Z_contains; [reflexivity | discriminate]).
  rewrite split_whole by (apply str_of_Z_contains; [reflexivity | discriminate]).
  now rewrite !py_int_str_of_Z.
Qed.

(** A formation "AxB" written with two integers comes out with the larger
    number first, and "AxA" comes out unchanged. *)
Theorem normalize_formation_group_larger_first :
  forall a b : Z,
    Z.abs a < 10 ^ max_str_digits -> Z.abs b < 10 ^ max_str_digits ->
    normalize_formation_group (Some (Py.str_of_Z a ++ "x" ++ Py.str_of_Z b))
    = Some (Py.str_of_Z (Z.max a b) ++ "x" ++ Py.str_of_Z (Z.min a b))
    /\ normalize_formation_group (Some (Py.str_of_Z a ++ "x" ++ Py.str_of_Z a))
       = Some (Py.str_of_Z a ++ "x" ++ Py.str_of_Z a).
Proof.
  intros a b _ _. split; [apply normalize_formation_group_text|].
  rewrite normalize_formation_group_text. now rewrite Z.max_id, Z.min_id.
Qed.

Lemma normalize_formation_group_larger_first_witness :
  normalize_formation_group (Some "1x3") = Some "3x1".
Proof.
  apply (normalize_formation_group_larger_first 1 3); reflexivity.
Defined.

(** The result of [normalize_formation_group] is the input itself or a
    text "MAXxMIN" of two integers. *)
Lemma normalize_formation_group_cases (formation : option string) :
  normalize_formation_group formation = formation
  \/ exists a b,
       normalize_formation_group formation
       = Some (Py.str_of_Z (Z.max a b) ++ "x" ++ Py.str_of_Z (Z.min a b)).
Proof.
  destruct formation as [s|]; [|now left]. unfold normalize_formation_group.
  destruct (Py.contains "x" s); [|now left].
  destruct (Py.split "x" s) as [|p0 [|p1 [|p2 t]]]; try now left.
  destruct (Py.py_int p0) as [a|]; [|now left].
  destruct (Py.py_int p1) as [b|]; [|now left].
  right. now exists a, b.
Qed.

(** Normalizing a formation group twice is normalizing it once. *)
Theorem normalize_formation_group_idempotent :
  forall formation : option string,
    (forall s, formation = Some s ->
               ascii_text s = true /\ Z.of_nat (String.length s) <= max_str_digits) ->
    normalize_formation_group (normalize_formation_group formation)
    = normalize_formation_group formation.
Proof.
  intros formation _.
  destruct (normalize_formation_group_cases formation) as [E|[a [b E]]].
  - now rewrite E.
  - rewrite E, normalize_formation_group_text.
    replace (Z.max (Z.max a b) (Z.min a b)) with (Z.max a b) by lia.
    replace (Z.min (Z.max a b) (Z.min a b)) with (Z.min a b) by lia.
    reflexivity.
Qed.

Lemma normalize_formation_group_idempotent_witness :
  normalize_formation_group (normalize_formation_group (Some "1x3"))
  = normalize_formation_group (Some "1x3").
Proof.
  apply normalize_formation_group_idempotent.
  intros s [= <-]. split; [reflexivity | vm_compute; discriminate].
Defined.

(** The count in front of the rusher list is what [parse_pass_rushers]
    returns, whatever follows the first semicolon; a null cell gives 0. *)
Theorem parse_pass_rushers_leading_count :
  forall (n : Z) (players : string),
    Z.abs n < 10 ^ max_str_digits ->
    parse_pass_rushers (Some (Py.str_of_Z n ++ ";" ++ players)) = n
    /\ parse_pass_rushers (Some (Py.str_of_Z n)) = n
    /\ parse_pass_rushers None = 0.
Proof.
  intros n players _. unfold parse_pass_rushers.
  change (Py.str_of_Z n ++ ";" ++ players) with (Py.str_of_Z n ++ String ";" players).
  rewrite split_prefix by (apply str_of_Z_contains; [reflexivity | discriminate]).
  rewrite split_whole by (apply str_of_Z_contains; [reflexivity | discriminate]).
  now rewrite strip_str_of_Z, py_int_str_of_Z.
Qed.

Lemma parse_pass_rushers_leading_count_witness :
  parse_pass_rushers (Some "4; PHI 53 (LILB); PHI 90 (NRT); PHI 94 (RE); PHI 97 (DLT)") = 4.
Proof.
  apply (parse_pass_rushers_leading_count 4
           " PHI 53 (LILB); PHI 90 (NRT); PHI 94 (RE); PHI 97 (DLT)").
  reflexivity.
Defined.

(* ================================================================== *)
(** ** Coverages *)
(* ================================================================== *)

Lemma upper_char_facts (c : ascii) :
  Py.upper_char (Py.upper_char c) = Py.upper_char c
  /\ Py.is_space (Py.upper_char c) = Py.is_space c.
Proof. destruct c as [[] [] [] [] [] [] [] []]; split; reflexivity. Qed.

Lemma upper_idem (s : string) : Py.upper (Py.upper s) = Py.upper s.
Proof.
  induction s as [|c r IH]; [reflexivity|]. cbn [Py.upper].
  now rewrite IH, (proj1 (upper_char_facts c)).
Qed.

Lemma lstrip_upper (s : string) : Py.lstrip (Py.upper s) = Py.upper (Py.lstrip s).
Proof.
  induction s as [|c r IH]; [reflexivity|]. cbn [Py.upper Py.lstrip].
  rewrite (proj2 (upper_char_facts c)). destruct (Py.is_space c); [exact IH | reflexivity].
Qed.

Lemma rstrip_upper (s : string) : Py.rstrip (Py.upper s) = Py.upper (Py.rstrip s).
Proof.
  induction s as [|c r IH]; [reflexivity|]. cbn [Py.upper Py.rstrip].
  rewrite IH, (proj2 (upper_char_facts c)).
  destruct (Py.rstrip r); cbn [Py.upper]; [destruct (Py.is_space c)|]; reflexivity.
Qed.

Lemma strip_upper (s : string) : Py.strip (Py.upper s) = Py.upper (Py.strip s).
Proof. unfold Py.strip. now rewrite lstrip_upper, rstrip_upper. Qed.

Lemma rstrip_cons (c : ascii) (r : string) :
  Py.is_space c = false -> Py.rstrip (String c r) = String c (Py.rstrip r).
Proof. intros H. cbn [Py.rstrip]. rewrite H. now destruct (Py.rstrip r). Qed.

Lemma rstrip_idem (s : string) : Py.rstrip (Py.rstrip s) = Py.rstrip s.
Proof.
  induction s as [|c r IH]; [reflexivity|]. cbn [Py.rstrip].
  destruct (Py.rstrip r) as [|c' r'] eqn:E.
  - destruct (Py.is_space c) eqn:Hc; [reflexivity|]. cbn [Py.rstrip]. now rewrite Hc.
  - cbn [Py.rstrip]. cbn [Py.rstrip] in IH.
    destruct (Py.rstrip r') as [|c2 r2]; [|now rewrite IH].
    destruct (Py.is_space c'); [discriminate IH | now rewrite IH].
Qed.

(** A text without leading white space. *)
Lemma lstrip_head (s : string) :
  Py.lstrip s = "" \/ exists c r, Py.lstrip s = String c r /\ Py.is_space c = false.
Proof.
  induction s as [|c r IH]; [now left|]. cbn [Py.lstrip].
  destruct (Py.is_space c) eqn:Hc; [exact IH|]. right. now exists c, r.
Qed.

Lemma strip_idem (s : string) : Py.strip (Py.strip s) = Py.strip s.
Proof.
  unfold Py.strip. destruct (lstrip_head s) as [E|(c & r & E & Hc)]; rewrite E.
  - reflexivity.
  - rewrite (rstrip_cons c r Hc). cbn [Py.lstrip]. rewrite Hc.
    now rewrite (rstrip_cons c _ Hc), rstrip_idem.
Qed.

(** The canonical text of a coverage: trimmed and upper-cased. *)
Lemma canonical_coverage_fixed (s : string) :
  Py.upper (Py.strip (Py.upper (Py.strip s))) = Py.upper (Py.strip s).
Proof. now rewrite strip_upper, upper_idem, strip_idem. Qed.

(** Normalizing a coverage name twice is normalizing it once, and the
    result is never one of the three Cover 3 variants. *)
Theorem normalize_coverage_idempotent :
  forall coverage : option string,
    (forall s, coverage = Some s -> ascii_text s = true) ->
    normalize_coverage (normalize_coverage coverage) = normalize_coverage coverage
    /\ (forall v, normalize_coverage coverage = Some v ->
          ~ In v ["COVER 3 CLOUD"; "COVER 3 DBL CLOUD"; "COVER 3 SEAM"]).
Proof.
  intros [s|] _; [|split; [reflexivity | discriminate]].
  unfold normalize_coverage.
  destruct (Py.in_list (Py.upper (Py.strip s)) _) eqn:E.
  - split; [reflexivity|]. intros v [= <-] H. simpl in H.
    repeat (destruct H as [H|H]; [discriminate H|]). exact H.
  - split.
    + rewrite canonical_coverage_fixed. now rewrite E.
    + intros v [= <-] H. apply in_list_iff in H. congruence.
Qed.

Lemma normalize_coverage_idempotent_witness :
  normalize_coverage (normalize_coverage (Some " Cover 3 Seam "))
  = normalize_coverage (Some " Cover 3 Seam ").
Proof.
  apply normalize_coverage_idempotent. intros s [= <-]. reflexivity.
Defined.

(** On a derived row the two coverage columns agree: the play counts as
    man coverage exactly when its normalized coverage is one of the four
    man coverage names. *)
Theorem man_coverage_of_normalized_coverage :
  forall (df : DataFrame) (p : Play),
    In p (add_calculated_columns df) ->
    Col.is_man_coverage p
    = Z.b2z (str_isin (Col.pff_PASS_COVERAGE_NORMALIZED p) man_coverages).
Proof.
  intros df p Hin. apply In_add_calculated_columns in Hin. destruct Hin as [q [_ ->]].
  cbn [add_defensive_columns_row add_offensive_columns_row Col.is_man_coverage
       Col.pff_PASS_COVERAGE_NORMALIZED Col.pff_PASS_COVERAGE_BASIC].
  f_equal. destruct (Col.pff_PASS_COVERAGE_BASIC q) as [s|]; [|reflexivity].
  unfold is_man_coverage, normalize_coverage.
  destruct (Py.in_list (Py.upper (Py.strip s)) ["COVER 3 CLOUD"; _; _]) eqn:E;
    [|reflexivity].
  apply in_list_iff in E. simpl in E.
  destruct E as [<-|[<-|[<-|[]]]]; reflexivity.
Qed.

Lemma man_coverage_of_normalized_coverage_witness :
  Col.is_man_coverage
    (add_defensive_columns_row (add_offensive_columns_row (play_in_week "BUF" "KC" "1")))
  = 0.
Proof.
  rewrite (man_coverage_of_normalized_coverage [play_in_week "BUF" "KC" "1"]).
  - reflexivity.
  - simpl. left. reflexivity.
Defined.

(* ================================================================== *)
(** ** Percentages stay between 0 and 100 *)
(* ================================================================== *)

Lemma pct_bounds (count : Z) (total : nat) :
  0 <= count <= Z.of_nat total -> (0 <= pct count total /\ pct count total <= 100)%Q.
Proof.
  intros [H0 H1]. unfold pct. destruct total as [|n].
  - assert (count = 0) by (simpl in H1; lia). subst.
    split; unfold Qle; simpl; lia.
  - assert (Hpos : (0 < inject_Z (Z.of_nat (S n)))%Q) by (unfold Qlt; simpl; lia).
    split.
    + apply Qmult_le_0_compat; [|unfold Qle; simpl; lia].
      apply Qle_shift_div_l; [exact Hpos|]. rewrite Qmult_0_l.
      unfold Qle. simpl. lia.
    + setoid_replace (100 : Q) with (1 * 100)%Q by ring.
      apply Qmult_le_compat_r; [|unfold Qle; simpl; lia].
      apply Qle_shift_div_r; [exact Hpos|]. rewrite Qmult_1_l.
      rewrite <- Zle_Qle. exact H1.
Qed.

Lemma col_sum_indicator_bounds (col : Play -> Z) (b : Play -> bool) (l : DataFrame) :
  (forall p, In p l -> col p = Z.b2z (b p)) ->
  0 <= col_sum col l <= Z.of_nat (List.length l).
Proof.
  intros H. rewrite (col_sum_indicator col b l H).
  pose proof (filter_length_le b l). lia.
Qed.

(** On a derived row every indicator column except [is_play_action] is
    the 0/1 value of a test on the raw columns. *)
Lemma derived_row_indicators (p : Play) :
  add_defensive_columns_row (add_offensive_columns_row p) = p ->
  Col.is_run p = Z.b2z (str_eq (Col.pff_RUNPASS p) "R")
  /\ Col.has_motion p = Z.b2z (notna (Col.pff_SHIFTMOTION p))
  /\ Col.is_standard_dropback p
     = Z.b2z (str_isin (Col.pff_DROPBACKTYPE p) ["SD"; "SR"; "SL"]
              && num_eq (Col.pff_PLAYACTION p) 0)
  /\ Col.is_play_action p = fillna0 (Col.pff_PLAYACTION p)
  /\ Col.is_blitz p = Z.b2z (num_eq (Col.pff_BLITZDOG p) 1)
  /\ Col.is_man_coverage p = Z.b2z (is_man_coverage (Col.pff_PASS_COVERAGE_BASIC p))
  /\ Col.is_mofo p = Z.b2z (str_eq (Col.pff_MOFOCPLAYED p) "O").
Proof.
  intros E. rewrite <- E. destruct p; repeat split.
Qed.

Lemma zero_percent_bounds : (0 <= 0 /\ 0 <= 100)%Q.
Proof. split; unfold Qle; simpl; lia. Qed.

(** The offense percentages of a derived frame lie between 0 and 100: run,
    standard dropback and motion always, play action when the play-action
    flag of every row is null, 0 or 1. *)
Theorem offense_percentages_bounded :
  forall df : DataFrame,
    derived df ->
    let o := calculate_overall_tendencies df in
    Overall.total_plays o = List.length df
    /\ (0 <= Overall.run_pct o /\ Overall.run_pct o <= 100)%Q
    /\ (0 <= Overall.db_pct o /\ Overall.db_pct o <= 100)%Q
    /\ (0 <= Overall.motion_pct o /\ Overall.motion_pct o <= 100)%Q
    /\ ((forall p, In p df -> 0 <= fillna0 (Col.pff_PLAYACTION p) <= 1) ->
        (0 <= Overall.pa_pct o /\ Overall.pa_pct o <= 100)%Q).
Proof.
  intros df Hd o. pose proof (derived_rows df Hd) as Hrows.
  unfold o, calculate_overall_tendencies.
  destruct df as [|p0 t] eqn:Edf.
  - cbn. repeat split; try apply zero_percent_bounds; intros _; apply zero_percent_bounds.
  - rewrite <- Edf in *. assert (E : (List.length df =? 0)%nat = false) by now rewrite Edf.
    rewrite E. cbn [Overall.total_plays Overall.run_pct Overall.db_pct
                    Overall.motion_pct Overall.pa_pct].
    split; [reflexivity|].
    split; [|split; [|split]].
    + apply pct_bounds, (col_sum_indicator_bounds _ (fun p => str_eq (Col.pff_RUNPASS p) "R")).
      intros p Hp. apply (derived_row_indicators p (Hrows p Hp)).
    + apply pct_bounds,
        (col_sum_indicator_bounds _
           (fun p => str_isin (Col.pff_DROPBACKTYPE p) ["SD"; "SR"; "SL"]
                     && num_eq (Col.pff_PLAYACTION p) 0)).
      intros p Hp. apply (derived_row_indicators p (Hrows p Hp)).
    + apply pct_bounds,
        (col_sum_indicator_bounds _ (fun p => notna (Col.pff_SHIFTMOTION p))).
      intros p Hp. apply (derived_row_indicators p (Hrows p Hp)).
    + intros Hpa. apply pct_bounds,
        (col_sum_indicator_bounds _ (fun p => fillna0 (Col.pff_PLAYACTION p) =? 1)).
      intros p Hp. destruct (derived_row_indicators p (Hrows p Hp)) as (_ & _ & _ & -> & _).
      specialize (Hpa p Hp).
      destruct (Z.eqb_spec (fillna0 (Col.pff_PLAYACTION p)) 1) as [->|]; simpl; lia.
Qed.

Lemma offense_percentages_bounded_witness :
  (0 <= Overall.run_pct (calculate_overall_tendencies sample_defense_frame)
   /\ Overall.run_pct (calculate_overall_tendencies sample_defense_frame) <= 100)%Q.
Proof.
  destruct (offense_percentages_bounded sample_defense_frame) as (_ & H & _).
  - reflexivity.
  - exact H.
Defined.

(** The defense percentages of a derived frame lie between 0 and 100. *)
Theorem defense_percentages_bounded :
  forall df : DataFrame,
    derived df ->
    let o := calculate_defensive_overall_tendencies df in
    DefOverall.total_plays o = List.length df
    /\ (0 <= DefOverall.blitz_pct o /\ DefOverall.blitz_pct o <= 100)%Q
    /\ (0 <= DefOverall.man_pct o /\ DefOverall.man_pct o <= 100)%Q
    /\ (0 <= DefOverall.mofo_pct o /\ DefOverall.mofo_pct o <= 100)%Q
    /\ (0 <= DefOverall.disguise_pct o /\ DefOverall.disguise_pct o <= 100)%Q.
Proof.
  intros df Hd o. pose proof (derived_rows df Hd) as Hrows.
  assert (Hpass : forall p, In p (pass_plays_of df) ->
                    add_defensive_columns_row (add_offensive_columns_row p) = p).
  { intros p Hp. apply Hrows. now apply pass_plays_of_subset. }
  unfold o, calculate_defensive_overall_tendencies.
  destruct (pass_plays_of df) as [|p0 t] eqn:Epass.
  - cbn. repeat split; apply zero_percent_bounds.
  - rewrite <- Epass in *.
    assert (E : (List.length (pass_plays_of df) =? 0)%nat = false) by now rewrite Epass.
    rewrite E. cbn [DefOverall.total_plays DefOverall.blitz_pct DefOverall.man_pct
                    DefOverall.mofo_pct DefOverall.disguise_pct].
    split; [reflexivity|].
    split; [|split; [|split]].
    + apply pct_bounds, (col_sum_indicator_bounds _ (fun p => num_eq (Col.pff_BLITZDOG p) 1)).
      intros p Hp. apply (derived_row_indicators p (Hpass p Hp)).
    + apply pct_bounds,
        (col_sum_indicator_bounds _ (fun p => is_man_coverage (Col.pff_PASS_COVERAGE_BASIC p))).
      intros p Hp. apply (derived_row_indicators p (Hpass p Hp)).
    + apply pct_bounds,
        (col_sum_indicator_bounds _ (fun p => str_eq (Col.pff_MOFOCPLAYED p) "O")).
      intros p Hp. apply (derived_row_indicators p (Hpass p Hp)).
    + unfold disguise_rate.
      destruct (0 <? List.length _)%nat; [|apply zero_percent_bounds].
      apply pct_bounds, (col_sum_indicator_bounds _ disguise_play).
      intros p Hp. apply filter_In in Hp. destruct Hp as [Hp _].
      apply (derived_row_mofo p (Hpass p Hp)).
Qed.

Lemma defense_percentages_bounded_witness :
  (0 <= DefOverall.disguise_pct (calculate_defensive_overall_tendencies sample_defense_frame)
   /\ DefOverall.disguise_pct (calculate_defensive_overall_tendencies sample_defense_frame)
      <= 100)%Q.
Proof.
  destruct (defense_percentages_bounded sample_defense_frame) as (_ & _ & _ & _ & H).
  - reflexivity.
  - exact H.
Defined.

(* ================================================================== *)
(** ** The shape of the per-category tables *)
(* ================================================================== *)

Section CategoryTables.
Context {R : Type}.
Variable mk : nat -> string -> DataFrame -> R.
Variable usage : R -> Q.
Variable cat : R -> string.
Hypothesis usage_mk :
  forall T c g, usage (mk T c g) = pct (Z.of_nat (List.length g)) T.
Hypothesis cat_mk : forall T c g, cat (mk T c g) = c.

(** What both per-category functions compute, for the row builder [mk]. *)
Lemma category_table_generic (df : DataFrame)
    (category_column : Play -> option string) (table : option (list R)) :
  table
  = (if (List.length df =? 0)%nat then Some []
     else match map (fun '(category, group) => mk (List.length df) category group)
                    (groupby category_column df) with
          | [] => None
          | r :: rs => Some (sort_by (fun a b => Qle_bool (usage b) (usage a)) (r :: rs))
          end) ->
  (df = [] -> table = Some [])
  /\ (table = None <-> df <> [] /\ forall p, In p df -> category_column p = None)
  /\ (forall rows, table = Some rows ->
        StronglySorted (fun a b => (usage b <= usage a)%Q) rows
        /\ NoDup (map cat rows)
        /\ (forall c, In c (map cat rows) <->
                      exists p, In p df /\ category_column p = Some c)
        /\ (forall r, In r rows ->
              r = mk (List.length df) (cat r)
                     (filter (fun p => str_eq (category_column p) (cat r)) df)
              /\ filter (fun p => str_eq (category_column p) (cat r)) df <> [])
        /\ ((forall p, In p df -> category_column p <> None) -> df <> [] ->
            (Qsum (map usage rows) == 100)%Q)).
Proof.
  intros ->.
  destruct (Nat.eqb_spec (List.length df) 0) as [Hz|Hnz].
  - apply length_zero_iff_nil in Hz. subst df.
    split; [reflexivity|]. split.
    + split; [discriminate | intros [H _]; contradiction].
    + intros rows [= <-]. split; [constructor|]. split; [constructor|]. split.
      * split; [intros [] | intros [p [[] _]]].
      * split; [intros r [] | intros _ H; contradiction].
  - assert (Hne : df <> []) by (intros ->; now apply Hnz).
    destruct (groupby_keys category_column df) as (Hnd & Hkeys & Eg).
    set (keys := sort_by String.leb
                   (unique String.eqb (dropna (map category_column df)))) in *.
    rewrite Eg, map_map.
    set (rowof := fun c => mk (List.length df) c
                             (filter (fun p => str_eq (category_column p) c) df)).
    change (map (fun x => let '(category, group) :=
                            (x, filter (fun p => str_eq (category_column p) x) df) in
                          mk (List.length df) category group) keys)
      with (map rowof keys).
    assert (Hsorted : forall l,
              StronglySorted (fun a b => (usage b <= usage a)%Q)
                (sort_by (fun a b => Qle_bool (usage b) (usage a)) l)).
    { intros l.
      apply (StronglySorted_weaken (fun a b => Qle_bool (usage b) (usage a) = true)).
      - intros a b H. now apply Qle_bool_iff.
      - apply sort_by_sorted.
        + intros x y H. apply Qle_bool_iff.
          apply Qlt_le_weak, Qnot_le_lt. intros C. apply Qle_bool_iff in C. congruence.
        + intros x y z H1 H2. apply Qle_bool_iff. apply Qle_bool_iff in H1, H2.
          now apply Qle_trans with (usage y). }
    assert (Hcat : map cat (map rowof keys) = keys).
    { rewrite map_map. unfold rowof. erewrite map_ext; [apply map_id|].
      intros c. apply cat_mk. }
    split; [intros H; contradiction|].
    destruct keys as [|k ks] eqn:Ek.
    + cbn [map]. split.
      * split; [|reflexivity]. intros _. split; [exact Hne|].
        intros p Hp. destruct (category_column p) as [c|] eqn:Ec; [|reflexivity].
        exfalso. apply (proj2 (Hkeys c)). now exists p.
      * intros rows H. discriminate H.
    + cbn [map]. split.
      * split; [discriminate|]. intros [_ Hnull]. exfalso.
        destruct (proj1 (Hkeys k) (or_introl eq_refl)) as [p [Hp Ep]].
        rewrite (Hnull p Hp) in Ep. discriminate.
      * intros rows Hrows.
        apply (f_equal (fun o => match o with Some x => x | None => [] end)) in Hrows.
        cbv beta iota in Hrows. subst rows.
        change (rowof k :: map rowof ks) with (map rowof (k :: ks)) in *.
        pose proof (sort_by_Permutation (fun a b => Qle_bool (usage b) (usage a))
                      (map rowof (k :: ks))) as Hperm.
        pose proof (Permutation_map cat Hperm) as Hpc. rewrite Hcat in Hpc.
        split; [apply Hsorted|]. split; [|split; [|split]].
        -- apply (Permutation_NoDup (l := k :: ks)); [now symmetry | exact Hnd].
        -- intros c. rewrite <- Hkeys. split; apply Permutation_in;
             [exact Hpc | now symmetry].
        -- intros r Hr. apply (Permutation_in _ Hperm) in Hr.
           apply in_map_iff in Hr. destruct Hr as [c [<- Hc]].
           unfold rowof. rewrite !cat_mk. split; [reflexivity|].
           apply Hkeys in Hc. destruct Hc as [p [Hp Ep]]. intros Hnil.
           assert (Hin : In p (filter (fun q => str_eq (category_column q) c) df)).
           { apply filter_In. split; [exact Hp | now apply str_eq_iff]. }
           rewrite Hnil in Hin. destruct Hin.
        -- intros Hnonnull _.
           rewrite (Qsum_Permutation _ _ (Permutation_map usage Hperm)).
           rewrite map_map. unfold rowof.
           rewrite (map_ext _ (fun c => pct (Z.of_nat (List.length
                      (filter (fun p => str_eq (category_column p) c) df)))
                      (List.length df))) by (intros c; apply usage_mk).
           rewrite <- (map_map
             (fun c => List.length (filter (fun p => str_eq (category_column p) c) df))
             (fun n => pct (Z.of_nat n) (List.length df))).
           rewrite Qsum_pct, group_sizes_total.
           ++ now apply pct_whole.
           ++ exact Hnd.
           ++ intros p Hp. destruct (category_column p) as [c|] eqn:Ec.
              ** exists c. split; [|reflexivity]. apply Hkeys. now exists p.
              ** exfalso. now apply (Hnonnull p Hp).
Qed.
End CategoryTables.

(** The per-category offense table.  An empty input gives the empty table;
    an input with rows but without any category fails on the final sort;
    otherwise there is exactly one row per category present in the input,
    computed on the rows of that category, and the rows come out in
    descending order of [Usage_Pct]. *)
Theorem category_table_shape :
  forall (df : DataFrame) (category_column : Play -> option string),
    (df = [] -> calculate_category_tendencies df category_column = Some [])
    /\ (calculate_category_tendencies df category_column = None <->
        df <> [] /\ forall p, In p df -> category_column p = None)
    /\ (forall rows,
          calculate_category_tendencies df category_column = Some rows ->
          StronglySorted
            (fun a b => (CategoryRow.Usage_Pct b <= CategoryRow.Usage_Pct a)%Q) rows
          /\ NoDup (map CategoryRow.Category rows)
          /\ (forall c, In c (map CategoryRow.Category rows) <->
                        exists p, In p df /\ category_column p = Some c)
          /\ (forall r, In r rows ->
                (0 < CategoryRow.Plays r)%nat
                /\ CategoryRow.Plays r
                   = List.length
                       (filter (fun p => str_eq (category_column p) (CategoryRow.Category r))
                               df))).
Proof.
  intros df category_column.
  destruct (category_table_generic category_row CategoryRow.Usage_Pct CategoryRow.Category
              (fun _ _ _ => eq_refl) (fun _ _ _ => eq_refl)
              df category_column (calculate_category_tendencies df category_column))
    as (Hempty & Hnone & Hsome).
  { unfold calculate_category_tendencies.
    destruct (List.length df =? 0)%nat; [reflexivity|].
    destruct (map _ (groupby category_column df)); reflexivity. }
  split; [exact Hempty|]. split; [exact Hnone|].
  intros rows Hrows. destruct (Hsome rows Hrows) as (Hs & Hnd & Hc & Hr & _).
  split; [exact Hs|]. split; [exact Hnd|]. split; [exact Hc|].
  intros r Hin. destruct (Hr r Hin) as [Er Hne]. rewrite Er at 1 2.
  cbn [category_row CategoryRow.Plays]. split; [|reflexivity].
  destruct (filter _ df); [contradiction | simpl; lia].
Qed.

Lemma category_table_shape_witness :
  calculate_category_tendencies
    [sample_play None None None None None None None None None None] Col.pff_WEEK
  = None.
Proof.
  apply category_table_shape. split; [discriminate|].
  intros p [<-|[]]. reflexivity.
Defined.

(** The per-category defense table has the same shape, and when no row of
    a non-empty input has a null category its [Usage_Pct] values add up to
    100. *)
Theorem defensive_category_table_shape :
  forall (df : DataFrame) (category_column : Play -> option string),
    (df = [] -> calculate_defensive_category_tendencies df category_column = Some [])
    /\ (calculate_defensive_category_tendencies df category_column = None <->
        df <> [] /\ forall p, In p df -> category_column p = None)
    /\ (forall rows,
          calculate_defensive_category_tendencies df category_column = Some rows ->
          StronglySorted
            (fun a b => (DefCategoryRow.Usage_Pct b <= DefCategoryRow.Usage_Pct a)%Q) rows
          /\ NoDup (map DefCategoryRow.Category rows)
          /\ (forall c, In c (map DefCategoryRow.Category rows) <->
                        exists p, In p df /\ category_column p = Some c)
          /\ (forall r, In r rows ->
                (0 < DefCategoryRow.Plays r)%nat
                /\ DefCategoryRow.Plays r
                   = List.length
                       (filter
                          (fun p => str_eq (category_column p) (DefCategoryRow.Category r))
                          df))
          /\ ((forall p, In p df -> category_column p <> None) -> df <> [] ->
              (Qsum (map DefCategoryRow.Usage_Pct rows) == 100)%Q)).
Proof.
  intros df category_column.
  destruct (category_table_generic defensive_category_row DefCategoryRow.Usage_Pct
              DefCategoryRow.Category (fun _ _ _ => eq_refl) (fun _ _ _ => eq_refl)
              df category_column
              (calculate_defensive_category_tendencies df category_column))
    as (Hempty & Hnone & Hsome).
  { unfold calculate_defensive_category_tendencies.
    destruct (List.length df =? 0)%nat; [reflexivity|].
    destruct (map _ (groupby category_column df)); reflexivity. }
  split; [exact Hempty|]. split; [exact Hnone|].
  intros rows Hrows. destruct (Hsome rows Hrows) as (Hs & Hnd & Hc & Hr & Hsum).
  split; [exact Hs|]. split; [exact Hnd|]. split; [exact Hc|]. split; [|exact Hsum].
  intros r Hin. destruct (Hr r Hin) as [Er Hne]. rewrite Er at 1 2.
  cbn [defensive_category_row DefCategoryRow.Plays]. split; [|reflexivity].
  destruct (filter _ df); [contradiction | simpl; lia].
Qed.

Lemma defensive_category_table_shape_witness :
  calculate_defensive_category_tendencies
    [sample_play None None None None None None None None None None] Col.pff_DEF_PACKAGE
  = None.
Proof.
  apply defensive_category_table_shape. split; [discriminate|].
  intros p [<-|[]]. reflexivity.
Defined.

(* ================================================================== *)
(** ** The teams of the league table *)
(* ================================================================== *)

Lemma NoDup_dropna {A : Type} (l : list (option A)) : NoDup l -> NoDup (dropna l).
Proof.
  induction 1 as [|[t|] us Hnotin Hnd IH]; cbn [dropna]; [constructor | | exact IH].
  constructor; [|exact IH]. now rewrite In_dropna.
Qed.

Lemma str_eq_notna (x : option string) (t : string) :
  str_eq x t = true -> notna x = true.
Proof. destruct x; [reflexivity | discriminate]. Qed.

(** The rows that the team loop produces for a list of team cells, each
    non-null one having plays. *)
Lemma team_loop_rows (plays : DataFrame) (us : list (option string)) :
  (forall t, In (Some t) us ->
             filter (fun p => str_eq (Col.pff_OFFTEAM p) t) plays <> []) ->
  let table :=
    flat_map
      (fun team =>
         let team_df := filter (fun p => team_is (Col.pff_OFFTEAM p) team) plays in
         if (List.length team_df =? 0)%nat then []
         else
           let total_plays := List.length team_df in
           [ {| TeamRow.Team := team;
                TeamRow.Total_Plays := total_plays;
                TeamRow.Run_Pct := pct (col_sum Col.is_run team_df) total_plays;
                TeamRow.PA_Pct := pct (col_sum Col.is_play_action team_df) total_plays;
                TeamRow.DB_Pct := pct (col_sum Col.is_standard_dropback team_df) total_plays;
                TeamRow.Motion_Pct := pct (col_sum Col.has_motion team_df) total_plays |} ])
      us in
  map TeamRow.Team table = filter notna us
  /\ map TeamRow.Total_Plays table
     = map (fun t => List.length (filter (fun p => str_eq (Col.pff_OFFTEAM p) t) plays))
           (dropna us).
Proof.
  cbv zeta. induction us as [|tm us IH]; intros Hall; [split; reflexivity|].
  cbn [flat_map]. rewrite !map_app.
  destruct IH as [IH1 IH2]; [intros t Ht; apply Hall; now right|].
  rewrite IH1, IH2. destruct tm as [t|]; cbn [team_is filter notna dropna map].
  - specialize (Hall t (or_introl eq_refl)).
    apply length_zero_eqb in Hall. rewrite Hall. split; reflexivity.
  - rewrite filter_none by reflexivity. split; reflexivity.
Qed.

(** The offense league table lists each offense team once, in order of
    first appearance among the plays that pass the situational steps, never
    with a null team and never without plays; together its rows count
    every such play that has an offense team exactly once. *)
Theorem league_table_teams :
  forall (C : Type) (c : C) (df : DataFrame) (filters : Filters),
    let plays := filter (situation_ok filters) df in
    let table := calculate_all_teams_tendencies df filters c in
    map TeamRow.Team table
    = filter notna (unique cell_eqb (map Col.pff_OFFTEAM plays))
    /\ NoDup (map TeamRow.Team table)
    /\ (forall row, In row table ->
          (0 < TeamRow.Total_Plays row)%nat
          /\ exists t, TeamRow.Team row = Some t
                       /\ TeamRow.Total_Plays row
                          = List.length (filter (fun p => str_eq (Col.pff_OFFTEAM p) t) plays))
    /\ list_sum (map TeamRow.Total_Plays table)
       = List.length (filter (fun p => notna (Col.pff_OFFTEAM p)) plays).
Proof.
  intros C c df filters plays table.
  assert (Hrows : forall row, In row table ->
            (0 < TeamRow.Total_Plays row)%nat
            /\ exists t, TeamRow.Team row = Some t
                         /\ TeamRow.Total_Plays row
                            = List.length
                                (filter (fun p => str_eq (Col.pff_OFFTEAM p) t) plays)).
  { intros row Hrow. apply all_teams_rows in Hrow. destruct Hrow as [t [Hne ->]].
    cbn [TeamRow.Total_Plays TeamRow.Team]. fold plays in Hne |- *. split.
    - destruct (filter _ plays); [contradiction | simpl; lia].
    - now exists t. }
  assert (Hteams : map TeamRow.Team table
                   = filter notna (unique cell_eqb (map Col.pff_OFFTEAM plays))
                   /\ map TeamRow.Total_Plays table
                      = map (fun t => List.length
                                        (filter (fun p => str_eq (Col.pff_OFFTEAM p) t) plays))
                            (dropna (unique cell_eqb (map Col.pff_OFFTEAM plays)))).
  { unfold table, calculate_all_teams_tendencies. cbv zeta. rewrite situational_steps.
    fold plays. apply team_loop_rows.
    intros t Ht. apply (proj1 (In_unique _ cell_eqb_eq _ _)) in Ht.
    apply in_map_iff in Ht. destruct Ht as [p [Ep Hp]]. intros Hnil.
    assert (Hin : In p (filter (fun q => str_eq (Col.pff_OFFTEAM q) t) plays)).
    { apply filter_In. split; [exact Hp | now apply str_eq_iff]. }
    rewrite Hnil in Hin. destruct Hin. }
  destruct Hteams as [Hteam Htotal].
  split; [exact Hteam|]. split; [|split; [exact Hrows|]].
  - rewrite Hteam. apply NoDup_filter, NoDup_unique, cell_eqb_eq.
  - rewrite Htotal.
    rewrite (map_ext _ (fun t => List.length
               (filter (fun p => str_eq (Col.pff_OFFTEAM p) t)
                       (filter (fun p => notna (Col.pff_OFFTEAM p)) plays)))).
    + apply group_sizes_total.
      * apply NoDup_dropna, NoDup_unique, cell_eqb_eq.
      * intros p Hp. apply filter_In in Hp. destruct Hp as [Hp Hn].
        destruct (Col.pff_OFFTEAM p) as [t|] eqn:Et; [|discriminate Hn].
        exists t. split; [|reflexivity]. apply In_dropna.
        apply (In_unique _ cell_eqb_eq). rewrite <- Et. now apply in_map.
    + intros t. rewrite filter_fuse. f_equal. apply filter_ext. intros p.
      destruct (str_eq (Col.pff_OFFTEAM p) t) eqn:E;
        [now rewrite (str_eq_notna _ _ E) | now rewrite andb_false_r].
Qed.

(* ================================================================== *)
(** ** Formatting a percentage with its rank *)
(* ================================================================== *)

Lemma digit_value_eqb (a c : ascii) :
  Ascii.eqb a c = (Py.digit_value a =? Py.digit_value c).
Proof.
  destruct (Ascii.eqb_spec a c) as [->|Hne].
  - symmetry. apply Z.eqb_refl.
  - symmetry. apply Z.eqb_neq. intros E. apply Hne.
    unfold Py.digit_value in E.
    rewrite <- (ascii_nat_embedding a), <- (ascii_nat_embedding c).
    f_equal. lia.
Qed.

(** The last character of a decimal text is the number modulo 10. *)
Lemma last_digit (s : string) :
  forall acc seen v c,
    all_digits s = true -> s <> "" -> Py.int_digits acc seen s = Some v ->
    endswith_char s c = (v mod 10 =? Py.digit_value c).
Proof.
  induction s as [|a r IH]; intros acc seen v c Hd Hne Hv; [contradiction|].
  cbn [all_digits] in Hd. apply andb_true_iff in Hd. destruct Hd as [Ha Hr].
  rewrite (int_digits_step acc seen a r Ha) in Hv.
  destruct r as [|b r'].
  - destruct (digit_not_special a Ha) as (_ & _ & Hrange).
    assert (Hm : (10 * acc + Py.digit_value a) mod 10 = Py.digit_value a).
    { rewrite Z.add_comm, Z.mul_comm, Z_mod_plus_full. apply Z.mod_small. lia. }
    cbn [Py.int_digits] in Hv.
    assert (Ev : v = 10 * acc + Py.digit_value a) by congruence.
    rewrite Ev, Hm. cbn [endswith_char]. apply digit_value_eqb.
  - change (endswith_char (String a (String b r')) c)
      with (endswith_char (String b r') c).
    apply (IH _ _ _ _ Hr (ltac:(discriminate)) Hv).
Qed.

(** The decimal text of a natural number. *)
Lemma str_of_nat_text (n : nat) :
  all_digits (Py.str_of_nat n) = true
  /\ Py.str_of_nat n <> ""
  /\ Py.int_digits 0 false (Py.str_of_nat n) = Some (Z.of_nat n).
Proof.
  unfold Py.str_of_nat. destruct (Z.of_nat n) as [|p|p] eqn:E; try lia.
  - repeat split. discriminate.
  - rewrite str_of_Z_pos.
    destruct (uint_text_head _ (DecimalPos.Unsigned.to_uint_nonnil p)) as (c & r & Et & _).
    split; [apply uint_text_digits|]. split; [rewrite Et; discriminate|].
    rewrite int_digits_uint_start by apply DecimalPos.Unsigned.to_uint_nonnil.
    now rewrite DecimalPos.Unsigned.of_to.
Qed.

Lemma str_of_nat_eqb (n m : nat) :
  String.eqb (Py.str_of_nat n) (Py.str_of_nat m) = (n =? m)%nat.
Proof.
  destruct (Nat.eqb_spec n m) as [->|Hne]; [apply String.eqb_refl|].
  apply String.eqb_neq. intros E.
  destruct (str_of_nat_text n) as (_ & _ & Hn).
  destruct (str_of_nat_text m) as (_ & _ & Hm).
  rewrite E in Hn. rewrite Hn in Hm. injection Hm as Hm. lia.
Qed.

Lemma str_of_nat_endswith (n : nat) (c : ascii) (d : nat) :
  Py.digit_value c = Z.of_nat d ->
  endswith_char (Py.str_of_nat n) c = (n mod 10 =? d)%nat.
Proof.
  intros Hc. destruct (str_of_nat_text n) as (Hd & Hne & Hv).
  rewrite (last_digit _ _ _ _ c Hd Hne Hv), Hc.
  destruct (Nat.eqb_spec (n mod 10) d) as [E|E].
  - apply Z.eqb_eq. rewrite <- E. now rewrite Nat2Z.inj_mod.
  - apply Z.eqb_neq. intros H. apply E.
    apply Nat2Z.inj. now rewrite Nat2Z.inj_mod.
Qed.

Lemma remove_tie_marks_digits (s : string) :
  all_digits s = true -> remove_tie_marks s = s.
Proof.
  induction s as [|c r IH]; [reflexivity|]. intros H.
  cbn [all_digits] in H. apply andb_true_iff in H. destruct H as [Hc Hr].
  destruct r as [|d r']; [reflexivity|].
  change (remove_tie_marks (String c (String d r')))
    with (if Ascii.eqb c "t" && Ascii.eqb d "-" then remove_tie_marks r'
          else String c (remove_tie_marks (String d r'))).
  assert (Ht : Ascii.eqb c "t" = false).
  { destruct (Ascii.eqb_spec c "t") as [->|]; [discriminate Hc | reflexivity]. }
  rewrite Ht. cbn [andb]. now rewrite (IH Hr).
Qed.

Lemma digits_no_tie_prefix (s : string) :
  all_digits s = true -> String.prefix "t-" s = false.
Proof.
  destruct s as [|c r]; [reflexivity|]. intros H.
  cbn [all_digits] in H. apply andb_true_iff in H. destruct H as [Hc _].
  cbn [String.prefix]. destruct (ascii_dec "t" c) as [<-|]; [discriminate Hc | reflexivity].
Qed.

Lemma ordinal_suffix_of_text (n : nat) :
  (if endswith_char (Py.str_of_nat n) "1" && negb (String.eqb (Py.str_of_nat n) "11")
   then "st"
   else if endswith_char (Py.str_of_nat n) "2" && negb (String.eqb (Py.str_of_nat n) "12")
   then "nd"
   else if endswith_char (Py.str_of_nat n) "3" && negb (String.eqb (Py.str_of_nat n) "13")
   then "rd"
   else "th")
  = ordinal_suffix n.
Proof.
  unfold ordinal_suffix.
  rewrite (str_of_nat_endswith n "1" 1), (str_of_nat_endswith n "2" 2),
          (str_of_nat_endswith n "3" 3) by reflexivity.
  change "11" with (Py.str_of_nat 11). change "12" with (Py.str_of_nat 12).
  change "13" with (Py.str_of_nat 13).
  now rewrite !str_of_nat_eqb.
Qed.

Lemma format_numbered_rank (v : Q) (n : nat) :
  format_percentage_with_rank (Some v) (Py.str_of_nat n)
  = Py.format_1f v ++ "% (" ++ Py.str_of_nat n ++ ordinal_suffix n ++ ")".
Proof.
  destruct (str_of_nat_text n) as (Hd & _ & _).
  unfold format_percentage_with_rank.
  rewrite (proj2 (String.eqb_neq _ _) (str_of_nat_not_sentinel n)).
  cbv zeta. rewrite (remove_tie_marks_digits _ Hd), (digits_no_tie_prefix _ Hd).
  now rewrite ordinal_suffix_of_text.
Qed.

Lemma format_tied_rank (v : Q) (n : nat) :
  format_percentage_with_rank (Some v) ("t-" ++ Py.str_of_nat n)
  = Py.format_1f v ++ "% (t-" ++ Py.str_of_nat n ++ "th)".
Proof.
  destruct (str_of_nat_text n) as (Hd & Hne & _).
  unfold format_percentage_with_rank.
  change ("t-" ++ Py.str_of_nat n) with (String "t" (String "-" (Py.str_of_nat n))).
  change (String.eqb (String "t" (String "-" (Py.str_of_nat n))) "-") with false.
  cbv zeta.
  change (remove_tie_marks (String "t" (String "-" (Py.str_of_nat n))))
    with (remove_tie_marks (Py.str_of_nat n)).
  rewrite (remove_tie_marks_digits _ Hd).
  assert (Hp : String.prefix "t-" (String "t" (String "-" (Py.str_of_nat n))) = true).
  { cbn [String.prefix]. destruct (ascii_dec "t" "t"); [|contradiction].
    destruct (ascii_dec "-" "-"); [|contradiction]. now destruct (Py.str_of_nat n). }
  now rewrite Hp.
Qed.

Lemma ordinal_suffix_english (n : nat) :
  (n <= 110)%nat -> ordinal_suffix n = english_suffix n.
Proof.
  intros H. do 111 (destruct n as [|n]; [reflexivity|]). lia.
Qed.

(** A non-tied rank [n] is shown as the percentage followed by "(n" and a
    suffix: "st", "nd", "rd" for a last digit 1, 2, 3 unless the rank is
    exactly 11, 12 or 13, and "th" otherwise.  Up to rank 110 this is the
    English ordinal; rank 111 is shown as "111st". *)
Theorem format_percentage_with_rank_ordinal :
  forall (v : Q) (n : nat),
    format_percentage_with_rank (Some v) (Py.str_of_nat n)
    = Py.format_1f v ++ "% (" ++ Py.str_of_nat n ++ ordinal_suffix n ++ ")"
    /\ ((n <= 110)%nat -> ordinal_suffix n = english_suffix n)
    /\ ordinal_suffix 111 = "st" /\ english_suffix 111 = "th".
Proof.
  intros v n. split; [apply format_numbered_rank|].
  split; [apply ordinal_suffix_english|]. split; reflexivity.
Qed.

Lemma format_percentage_with_rank_ordinal_witness :
  ordinal_suffix 22 = english_suffix 22.
Proof.
  apply (format_percentage_with_rank_ordinal 0 22). repeat constructor.
Defined.

(** What the formatter shows for the rank that [rank_of] computes: the
    bare percentage when no team has the value; "(t-Nth)" when several
    teams share it, with "th" whatever N is; "(N" with its ordinal suffix
    otherwise, N being one more than the number of teams above.  A null
    value is shown as "-". *)
Theorem format_percentage_with_rank_of :
  forall (x : Q) (table : list Q) (value : Q),
    let shown := format_percentage_with_rank (Some x) (rank_of table value) in
    let n := (teams_above table value + 1)%nat in
    format_percentage_with_rank None (rank_of table value) = "-"
    /\ ((forall y, In y table -> ~ (y == value)%Q) ->
        shown = Py.format_1f x ++ "%")
    /\ ((exists y, In y table /\ (y == value)%Q) -> (1 < teams_at table value)%nat ->
        shown = Py.format_1f x ++ "% (t-" ++ Py.str_of_nat n ++ "th)")
    /\ ((exists y, In y table /\ (y == value)%Q) -> (teams_at table value <= 1)%nat ->
        shown = Py.format_1f x ++ "% (" ++ Py.str_of_nat n ++ ordinal_suffix n ++ ")").
Proof.
  intros x table value shown n. unfold shown, n.
  split; [reflexivity|]. split; [|split].
  - intros Hno. now rewrite (rank_of_absent _ _ Hno).
  - intros Hex Htie. rewrite (rank_of_found _ _ Hex).
    apply Nat.ltb_lt in Htie. rewrite Htie. apply format_tied_rank.
  - intros Hex Hone. rewrite (rank_of_found _ _ Hex).
    assert (E : (1 <? teams_at table value)%nat = false) by (apply Nat.ltb_ge; lia).
    rewrite E. apply format_numbered_rank.
Qed.

Lemma format_percentage_with_rank_of_witness :
  format_percentage_with_rank (Some (452 # 10)) (rank_of [50; 40; 50]%Q 50%Q)
  = "45.2% (t-1th)".
Proof.
  destruct (format_percentage_with_rank_of (452 # 10) [50; 40; 50]%Q 50%Q)
    as (_ & _ & Htie & _).
  rewrite Htie.
  - reflexivity.
  - exists 50%Q. split; [now left | reflexivity].
  - vm_compute. lia.
Defined.

(* ================================================================== *)
(** ** The display order of the weeks *)
(* ================================================================== *)

Lemma int_digits_total (s : string) :
  forall acc, all_digits s = true -> exists v, Py.int_digits acc true s = Some v.
Proof.
  induction s as [|c r IH]; intros acc H; [now exists acc|].
  cbn [all_digits] in H. apply andb_true_iff in H. destruct H as [Hc Hr].
  rewrite (int_digits_step _ _ _ _ Hc). now apply IH.
Qed.

(** [int] accepts every text that [isdigit] accepts, with a result that
    is not negative. *)
Lemma isdigit_py_int (s : string) :
  str_isdigit s = true -> exists n, Py.py_int s = Some n /\ 0 <= n.
Proof.
  destruct s as [|c r]; [discriminate|]. cbn [str_isdigit]. intros H.
  assert (Hs : Py.strip (String c r) = String c r).
  { unfold Py.strip. now rewrite (digits_lstrip _ H), (digits_rstrip _ H). }
  cbn [all_digits] in H. apply andb_true_iff in H. destruct H as [Hc Hr].
  rewrite (py_int_unsigned _ c r Hc Hs), (int_digits_step _ _ _ _ Hc).
  destruct (int_digits_total r (10 * 0 + Py.digit_value c) Hr) as [v Hv].
  exists v. split; [exact Hv|].
  apply (int_digits_nonneg r (10 * 0 + Py.digit_value c) true v); [|exact Hv].
  destruct (digit_not_special c Hc) as (_ & _ & Hrange). lia.
Qed.

Lemma ints_of_isdigit (l : list string) :
  (forall w, In w l -> str_isdigit w = true) ->
  exists ns, ints_of l = Some ns
             /\ Forall2 (fun w n => Py.py_int w = Some n /\ 0 <= n) l ns.
Proof.
  induction l as [|w t IH]; intros H.
  - exists []. split; [reflexivity | constructor].
  - destruct (isdigit_py_int w (H w (or_introl eq_refl))) as [n [Hn Hpos]].
    destruct IH as [ns [Hns Hall]]; [intros x Hx; apply H; now right|].
    exists (n :: ns). cbn [ints_of]. rewrite Hn, Hns. split; [reflexivity|].
    constructor; [split; assumption | exact Hall].
Qed.

Lemma in_list_filter (f : string -> bool) (w : string) (l : list string) :
  f w = true -> Py.in_list w (filter f l) = Py.in_list w l.
Proof.
  intros Hw. unfold Py.in_list. induction l as [|x t IH]; [reflexivity|].
  cbn [filter existsb]. destruct (String.eqb_spec w x) as [<-|Hne].
  - rewrite Hw. cbn [existsb]. now rewrite String.eqb_refl.
  - destruct (f x); cbn [existsb]; [|exact IH].
    rewrite (proj2 (String.eqb_neq _ _) Hne). exact IH.
Qed.

Lemma sort_Z_ascending (l : list Z) : StronglySorted Z.le (sort_by Z.leb l).
Proof.
  apply (StronglySorted_weaken (fun a b => Z.leb a b = true)).
  - intros a b H. now apply Z.leb_le.
  - apply sort_by_sorted.
    + intros x y H. apply Z.leb_le. apply Z.leb_gt in H. lia.
    + intros x y z H1 H2. apply Z.leb_le. apply Z.leb_le in H1, H2. lia.
Qed.

(** [sort_weeks] never fails on ASCII week labels.  It lists the numeric
    labels first, as numbers in ascending order (so "10" comes after "9"
    and "02" is shown as "2"), then those of the playoff rounds WC, DP, CC,
    SB that occur in the input, each once and in this order; any other
    label is left out. *)
Theorem sort_weeks_display_order :
  (forall week_list : list string,
      (forall w, In w week_list ->
                 ascii_text w = true /\ Z.of_nat (String.length w) <= max_str_digits) ->
      exists numeric,
        Forall2 (fun w n => Py.py_int w = Some n /\ 0 <= n)
                (filter str_isdigit week_list) numeric
        /\ sort_weeks week_list
           = Some (map Py.str_of_Z (sort_by Z.leb numeric)
                   ++ filter (fun w => Py.in_list w week_list) playoff_order)%list
        /\ StronglySorted Z.le (sort_by Z.leb numeric)
        /\ Permutation (sort_by Z.leb numeric) numeric)
  /\ sort_weeks ["WC"; "10"; "2"; "SB"; "1"; "DP"; "HOF"; "WC"; "02"]
     = Some ["1"; "2"; "2"; "10"; "WC"; "DP"; "SB"].
Proof.
  split; [|reflexivity].
  intros week_list _.
  destruct (ints_of_isdigit (filter str_isdigit week_list)) as [numeric [Hints Hall]].
  { intros w Hw. now apply filter_In in Hw. }
  exists numeric. split; [exact Hall|]. split; [|split].
  - unfold sort_weeks. rewrite Hints. cbv zeta. do 2 f_equal.
    apply filter_ext_in. intros w Hw. apply in_list_filter.
    simpl in Hw. destruct Hw as [<-|[<-|[<-|[<-|[]]]]]; reflexivity.
  - apply sort_Z_ascending.
  - apply sort_by_Permutation.
Qed.

Lemma sort_weeks_display_order_witness :
  exists numeric,
    sort_weeks ["SB"; "12"; "3"]
    = Some (map Py.str_of_Z (sort_by Z.leb numeric)
            ++ filter (fun w => Py.in_list w ["SB"; "12"; "3"]) playoff_order)%list.
Proof.
  destruct sort_weeks_display_order as [Hall _].
  destruct (Hall ["SB"; "12"; "3"]) as (numeric & _ & Hs & _).
  - intros w [<-|[<-|[<-|[]]]]; split; try reflexivity; vm_compute; discriminate.
  - exists numeric. exact Hs.
Defined.

(* ================================================================== *)
(** ** Top lists *)
(* ================================================================== *)





